(** * ai-agent-toolkit: the client-side request/response orchestration layer

    A shallow embedding of the TypeScript front end: the fetch wrappers of
    [api/client.ts] ([parseFileName], [handleResponse], [get], [postJson],
    [postFormData]), the download helper of [utils/download.ts], the three
    generation forms ([AssessmentCreator], [LessonPlanner],
    [ContentGenerator]), the upload panel ([DataConfigurationPanel]) and the
    session state of [App.tsx] (readiness flags and location defaults).

    JavaScript strings are sequences of UTF-16 code units; React state is
    threaded explicitly, one Rocq function per synchronous stretch of an
    [async] handler (the code before an [await], and the code after it). *)

From Stdlib Require Import NArith ZArith Ascii String DecimalString Lia.
From stdpp Require Import base option list strings gmap.

Set Warnings "-register-all".
Local Open Scope N_scope.

(** ** JavaScript strings *)

Module JsString.

(** A JavaScript string: its UTF-16 code units. *)
Definition jsstring : Type := list N.

(** A literal written in ASCII. *)
Definition js (s : string) : jsstring :=
  N_of_ascii <$> list_ascii_of_string s.

Definition cu_eqb (a b : N) : bool := N.eqb a b.

Fixpoint jseqb (a b : jsstring) : bool :=
  match a, b with
  | [], [] => true
  | x :: a', y :: b' => cu_eqb x y && jseqb a' b'
  | _, _ => false
  end.

(** [s.startsWith(p)] *)
Fixpoint startsWith (p s : jsstring) : bool :=
  match p, s with
  | [], _ => true
  | x :: p', y :: s' => cu_eqb x y && startsWith p' s'
  | _ :: _, [] => false
  end.

(** [s.includes(p)] *)
Fixpoint includes (p s : jsstring) : bool :=
  startsWith p s ||
  match s with
  | [] => false
  | _ :: s' => includes p s'
  end.

(** [s.substring(n)] for [0 <= n]. *)
Definition substring_from (n : nat) (s : jsstring) : jsstring := drop n s.

(** WhiteSpace and LineTerminator code units, the ones [trim] strips. *)
Definition is_trim_unit (c : N) : bool :=
  (9 <=? c) && (c <=? 13)
  || (c =? 32) || (c =? 160) || (c =? 0x1680)
  || (0x2000 <=? c) && (c <=? 0x200A)
  || (c =? 0x2028) || (c =? 0x2029) || (c =? 0x202F)
  || (c =? 0x205F) || (c =? 0x3000) || (c =? 0xFEFF).

Fixpoint trimStart (s : jsstring) : jsstring :=
  match s with
  | [] => []
  | c :: s' => if is_trim_unit c then trimStart s' else s
  end.

Definition trimEnd (s : jsstring) : jsstring :=
  rev (trimStart (rev s)).

(** [s.trim()] *)
Definition trim (s : jsstring) : jsstring := trimEnd (trimStart s).

(** Truthiness of a string: non-empty. *)
Definition truthy (s : jsstring) : bool :=
  match s with [] => false | _ :: _ => true end.

(** [a || b] on strings. *)
Definition or_else (a b : jsstring) : jsstring :=
  if truthy a then a else b.

(** [String(n)] for a non-negative integer. *)
Definition of_N (n : N) : jsstring :=
  js (NilZero.string_of_uint (N.to_uint n)).

End JsString.
Import JsString.

(** ** Completions: a value, or a thrown exception *)

(** The exceptions that reach this code.  [ApiError] is the class of
    [api/client.ts]; the others are the host's [Error] subclasses, and
    [NonError] stands for a thrown value that is not an [Error]. *)
Inductive Exn : Type :=
| ApiError (message : jsstring) (status : option N)
| SyntaxError (message : jsstring)
| URIError
| TypeError (message : jsstring)
| NonError.

(** [e instanceof Error ? e.message : fallback]; [URIError]'s text is the
    engine's (V8 words it so). *)
Definition message_or (fallback : jsstring) (e : Exn) : jsstring :=
  match e with
  | ApiError m _ => m
  | SyntaxError m => m
  | URIError => js "URI malformed"
  | TypeError m => m
  | NonError => fallback
  end.

Inductive Completion (A : Type) : Type :=
| Return (a : A)
| Throw (e : Exn).
Arguments Return {A} a.
Arguments Throw {A} e.

Definition returns {A} (c : Completion A) : bool :=
  match c with Return _ => true | Throw _ => false end.

Definition throws {A} (c : Completion A) : bool := negb (returns c).

(** ** [decodeURIComponent] *)

Module Uri.

(** Value of a hexadecimal digit. *)
Definition hex_digit (c : N) : option N :=
  if (48 <=? c) && (c <=? 57) then Some (c - 48)
  else if (65 <=? c) && (c <=? 70) then Some (c - 55)
  else if (97 <=? c) && (c <=? 102) then Some (c - 87)
  else None.

(** ParseHexOctet: two hexadecimal digits. *)
Definition hex_octet (a b : N) : option N :=
  match hex_digit a, hex_digit b with
  | Some x, Some y => Some (16 * x + y)
  | _, _ => None
  end.

(** An escape [%ab] read as an octet. *)
Definition escape_octet (p a b : N) : option N :=
  if p =? 37 then hex_octet a b else None.

(** Number of leading 1 bits of an octet, 5 standing for more than 4. *)
Definition leading_ones (b : N) : nat :=
  if b <? 0x80 then 0%nat
  else if b <? 0xC0 then 1%nat
  else if b <? 0xE0 then 2%nat
  else if b <? 0xF0 then 3%nat
  else if b <? 0xF8 then 4%nat
  else 5%nat.

Definition is_continuation (b : N) : bool := (0x80 <=? b) && (b <? 0xC0).

(** The code point of a well-formed UTF-8 sequence: continuation octets
    are [10xxxxxx], the value is not overlong, not a surrogate and at most
    U+10FFFF. *)
Definition utf8_code_point (octets : list N) : option N :=
  match octets with
  | [b0; b1] =>
      let v := N.lor (N.shiftl (N.land b0 0x1F) 6) (N.land b1 0x3F) in
      if is_continuation b1 && (0x80 <=? v) then Some v else None
  | [b0; b1; b2] =>
      let v := N.lor (N.shiftl (N.land b0 0x0F) 12)
                 (N.lor (N.shiftl (N.land b1 0x3F) 6) (N.land b2 0x3F)) in
      if is_continuation b1 && is_continuation b2 && (0x800 <=? v)
         && negb ((0xD800 <=? v) && (v <=? 0xDFFF))
      then Some v else None
  | [b0; b1; b2; b3] =>
      let v := N.lor (N.shiftl (N.land b0 0x07) 18)
                 (N.lor (N.shiftl (N.land b1 0x3F) 12)
                    (N.lor (N.shiftl (N.land b2 0x3F) 6) (N.land b3 0x3F))) in
      if is_continuation b1 && is_continuation b2 && is_continuation b3
         && (0x10000 <=? v) && (v <=? 0x10FFFF)
      then Some v else None
  | _ => None
  end.

(** UTF16EncodeCodePoint *)
Definition utf16_encode (v : N) : jsstring :=
  if v <=? 0xFFFF then [v]
  else [ (v - 0x10000) / 0x400 + 0xD800; (v - 0x10000) mod 0x400 + 0xDC00 ].

(** The code units a multi-octet escape sequence decodes to. *)
Definition decode_octets (octets : list (option N)) : option jsstring :=
  os ← mapM id octets;
  v ← utf8_code_point os;
  Some (utf16_encode v).

(** ECMAScript's Decode with an empty preserve set; [None] is the
    [URIError] it throws. *)
Fixpoint decodeURIComponent (s : jsstring) : option jsstring :=
  match s with
  | [] => Some []
  | c :: rest =>
      if negb (c =? 37) then cons c <$> decodeURIComponent rest
      else
        match rest with
        | h1 :: h2 :: rest1 =>
            match hex_octet h1 h2 with
            | None => None
            | Some b =>
                match leading_ones b with
                | 0%nat => cons b <$> decodeURIComponent rest1
                | 2%nat =>
                    match rest1 with
                    | p1 :: a1 :: b1 :: rest2 =>
                        u ← decode_octets [Some b; escape_octet p1 a1 b1];
                        app u <$> decodeURIComponent rest2
                    | _ => None
                    end
                | 3%nat =>
                    match rest1 with
                    | p1 :: a1 :: b1 :: p2 :: a2 :: b2 :: rest3 =>
                        u ← decode_octets
                              [Some b; escape_octet p1 a1 b1;
                               escape_octet p2 a2 b2];
                        app u <$> decodeURIComponent rest3
                    | _ => None
                    end
                | 4%nat =>
                    match rest1 with
                    | p1 :: a1 :: b1 :: p2 :: a2 :: b2
                      :: p3 :: a3 :: b3 :: rest4 =>
                        u ← decode_octets
                              [Some b; escape_octet p1 a1 b1;
                               escape_octet p2 a2 b2; escape_octet p3 a3 b3];
                        app u <$> decodeURIComponent rest4
                    | _ => None
                    end
                | _ => None
                end
            end
        | _ => None
        end
  end.

End Uri.
Import Uri.

(** ** The filename resolver ([parseFileName]) *)

Module FileName.

(** [x] matches the pattern letter [p] (a lower-case ASCII letter) under
    the ignore-case flag. *)
Definition ci_eqb (p x : N) : bool := (x =? p) || (x =? p - 32).

Fixpoint strip_prefix_ci (pat s : jsstring) : option jsstring :=
  match pat, s with
  | [], _ => Some s
  | p :: pat', x :: s' =>
      if ci_eqb p x then strip_prefix_ci pat' s' else None
  | _ :: _, [] => None
  end.

(** The longest run of code units other than [;]. *)
Fixpoint not_semicolons (s : jsstring) : jsstring :=
  match s with
  | [] => []
  | c :: s' => if c =? 59 then [] else c :: not_semicolons s'
  end.

(** [=([^;]+)] at the head of [s]: the captured group. *)
Definition equals_then_token (s : jsstring) : option jsstring :=
  match s with
  | c :: s' =>
      if c =? 61 then
        match not_semicolons s' with
        | [] => None
        | tok => Some tok
        end
      else None
  | [] => None
  end.

(** [/filename\*?=([^;]+)/i] anchored at the head of [s]: the greedy
    [\*?] first, then the alternative without the star. *)
Definition match_here (s : jsstring) : option jsstring :=
  match strip_prefix_ci (js "filename") s with
  | None => None
  | Some r =>
      match r with
      | c :: r' =>
          if c =? 42 then
            match equals_then_token r' with
            | Some tok => Some tok
            | None => equals_then_token r
            end
          else equals_then_token r
      | [] => None
      end
  end.

(** [/filename\*?=([^;]+)/i.exec(s)]: group 1 of the leftmost match. *)
Fixpoint regex_exec (s : jsstring) : option jsstring :=
  match match_here s with
  | Some tok => Some tok
  | None =>
      match s with
      | [] => None
      | _ :: s' => regex_exec s'
      end
  end.

Definition is_quote (c : N) : bool := (c =? 34) || (c =? 39).

(** [value.replace] with the global pattern over the class of the double
    and the single quote, by the empty string. *)
Definition remove_quotes (s : jsstring) : jsstring :=
  filter (λ c, is_quote c = false) s.

Definition utf8_prefix : jsstring := js "UTF-8''".

(** The synthesized name, [`download-${Date.now()}`]. *)
Definition fallback_name (now : N) : jsstring := js "download-" ++ of_N now.

(** [parseFileName(contentDisposition)], with the clock reading passed in. *)
Definition parseFileName (now : N) (contentDisposition : option jsstring)
  : Completion jsstring :=
  match contentDisposition with
  | None => Return (fallback_name now)
  | Some cd =>
      if negb (truthy cd) then Return (fallback_name now)
      else
        match regex_exec cd with
        | None => Return (fallback_name now)
        | Some m1 =>
            let value := trim m1 in
            if startsWith utf8_prefix value then
              match decodeURIComponent (substring_from 7 value) with
              | Some name => Return name
              | None => Throw URIError
              end
            else Return (remove_quotes value)
        end
  end.

End FileName.
Import FileName.

(** ** JSON values *)

Module Json.

(** A number as this code observes one: whether ToBoolean finds it false
    (zero, or not a number) and the text ToString prints for it, whatever
    its magnitude and whether it is whole or not. *)
Record Number : Type := mkNumber {
  num_falsy : bool;
  num_text : jsstring
}.

(** A value as [JSON.parse] delivers it; an object lists its own
    properties in order, each key once. *)
Inductive json : Type :=
| JNull
| JBool (b : bool)
| JNum (n : Number)
| JStr (s : jsstring)
| JArr (items : list json)
| JObj (fields : list (jsstring * json)).

(** ToBoolean *)
Definition json_truthy (v : json) : bool :=
  match v with
  | JNull => false
  | JBool b => b
  | JNum n => negb (num_falsy n)
  | JStr s => truthy s
  | JArr _ | JObj _ => true
  end.

Fixpoint assoc (k : jsstring) (fields : list (jsstring * json)) : option json :=
  match fields with
  | [] => None
  | (k', v) :: rest => if jseqb k k' then Some v else assoc k rest
  end.

(** [v.k] for a value that is not [null]: [None] is [undefined].  Only an
    object has own data properties under the names this code reads. *)
Definition get_prop (k : jsstring) (v : json) : option json :=
  match v with
  | JObj fields => assoc k fields
  | _ => None
  end.

(** [v?.k] *)
Definition get_prop_opt (k : jsstring) (v : json) : option json :=
  get_prop k v.

Fixpoint join_with (sep : jsstring) (parts : list jsstring) : jsstring :=
  match parts with
  | [] => []
  | [p] => p
  | p :: rest => p ++ sep ++ join_with sep rest
  end.

(** The string ToString gives for a value on which it returns: an array
    joins its elements with commas ([null] printing as nothing), an object
    prints as its class tag.  [ToString] below says when it returns. *)
Fixpoint to_string (v : json) : jsstring :=
  match v with
  | JNull => js "null"
  | JBool true => js "true"
  | JBool false => js "false"
  | JNum n => num_text n
  | JStr s => s
  | JArr items =>
      join_with (js ",")
        (map (fun item => match item with
                          | JNull => []
                          | _ => to_string item
                          end) items)
  | JObj _ => js "[object Object]"
  end.

(** ToString returns on a value unless it meets an object with a
    [toString] property of its own: no value of JSON is callable, so the
    conversion finds no method to call ([valueOf] gives the object back).
    An array converts its elements other than [null] in turn. *)
Fixpoint printable (v : json) : bool :=
  match v with
  | JObj fields =>
      match assoc (js "toString") fields with
      | Some _ => false
      | None => true
      end
  | JArr items => forallb printable items
  | _ => true
  end.

(** ToString, as the [Error] constructor and a template literal apply it;
    the text of the [TypeError] is the engine's. *)
Definition ToString (v : json) : Completion jsstring :=
  if printable v then Return (to_string v)
  else Throw (TypeError (js "Cannot convert object to primitive value")).

(** [a || b] where [a] may be [undefined]. *)
Definition opt_or (a : option json) (b : json) : json :=
  match a with
  | Some v => if json_truthy v then v else b
  | None => b
  end.

End Json.
Import Json.

(** ** The transport gateway ([api/client.ts]) *)

Module Client.

Record Blob : Type := mkBlob {
  blob_bytes : list N;
  blob_type : jsstring
}.

(** A [Response] as this code observes it: the status line, the headers
    (one value per lower-case name) and the body as each reader delivers
    it.  The readings of a real response agree with one another; the
    theorems hold for every combination. *)
Record Response : Type := mkResponse {
  status : N;
  statusText : jsstring;
  headers : gmap string jsstring;
  body_json : Completion json;
  body_text : jsstring;
  body_blob : Blob
}.

(** [response.ok] *)
Definition ok (r : Response) : bool :=
  (200 <=? status r) && (status r <=? 299).

(** [response.headers.get(name)] *)
Definition headers_get (name : string) (r : Response) : option jsstring :=
  headers r !! name.

Inductive ApiResponse : Type :=
| JsonResponse (data : json) (response : Response)
| FileResponse (blob : Blob) (fileName : jsstring) (mimeType : jsstring)
    (response : Response).

Inductive Kind : Type := KindJson | KindFile.

Definition kind (a : ApiResponse) : Kind :=
  match a with
  | JsonResponse _ _ => KindJson
  | FileResponse _ _ _ _ => KindFile
  end.

Definition response_of (a : ApiResponse) : Response :=
  match a with
  | JsonResponse _ r => r
  | FileResponse _ _ _ r => r
  end.

(** The value [handleResponse] hands to the [ApiError] constructor for a
    response that is not ok: [message || "API request failed"], written
    here without the quotes. *)
Definition error_value (r : Response) : json :=
  let message := JStr (statusText r) in
  let message :=
    match body_json r with
    | Return body =>
        match get_prop_opt (js "error") body with
        | Some e => if json_truthy e then e else message
        | None => message
        end
    | Throw _ =>
        let text := body_text r in
        if truthy text then JStr text else message
    end in
  if json_truthy message then message else JStr (js "API request failed").

(** [throw new ApiError(value, response.status)]: the constructor converts
    the value with ToString, and what is thrown is the [ApiError], or the
    [TypeError] of a conversion that throws. *)
Definition error_thrown (r : Response) : Exn :=
  match ToString (error_value r) with
  | Return message => ApiError message (Some (status r))
  | Throw e => e
  end.

(** The message of the error [handleResponse] throws for a response that
    is not ok. *)
Definition error_message (r : Response) : jsstring :=
  message_or [] (error_thrown r).

Definition handleResponse (now : N) (r : Response) : Completion ApiResponse :=
  if negb (ok r) then
    Throw (error_thrown r)
  else
    let contentType := default [] (headers_get "content-type" r) in
    if includes (js "application/json") contentType then
      match body_json r with
      | Return data => Return (JsonResponse data r)
      | Throw e => Throw e
      end
    else
      let blob := body_blob r in
      let mimeType :=
        or_else (or_else (blob_type blob) contentType)
          (js "application/octet-stream") in
      match parseFileName now (headers_get "content-disposition" r) with
      | Return fileName => Return (FileResponse blob fileName mimeType r)
      | Throw e => Throw e
      end.

(** The content type declares JSON: the test [handleResponse] applies. *)
Definition declares_json (r : Response) : bool :=
  includes (js "application/json") (default [] (headers_get "content-type" r)).

(** The MIME type a file response is given: the blob's, else the declared
    content type, else the generic one. *)
Definition mime_of (r : Response) : jsstring :=
  or_else (or_else (blob_type (body_blob r))
             (default [] (headers_get "content-type" r)))
    (js "application/octet-stream").

(** What [fetch] settles to: a response, or a rejection (no connection). *)
Inductive FetchOutcome : Type :=
| Responded (r : Response)
| Rejected (e : Exn).

Inductive Method : Type := GET | POST.

Inductive RequestBody : Type :=
| NoBody
| JsonBody (payload : json)
| FormBody (file : list N).

(** A call of [fetch]: the path is appended to the configured base URL. *)
Record Request : Type := mkRequest {
  req_method : Method;
  req_path : jsstring;
  req_content_type : option jsstring;
  req_body : RequestBody
}.

(** The three entry points, each split at its [await fetch]: the request
    it sends and what it does with the outcome.  No caller passes the
    optional [init] argument. *)
Definition get_request (path : jsstring) : Request :=
  mkRequest GET path None NoBody.

Definition get_settle (f : FetchOutcome) : Completion json :=
  match f with
  | Rejected e => Throw e
  | Responded r =>
      if negb (ok r) then Throw (ApiError (statusText r) (Some (status r)))
      else body_json r
  end.

Definition postJson_request (path : jsstring) (payload : json) : Request :=
  mkRequest POST path (Some (js "application/json")) (JsonBody payload).

Definition postJson_settle (now : N) (f : FetchOutcome) : Completion ApiResponse :=
  match f with
  | Rejected e => Throw e
  | Responded r => handleResponse now r
  end.

Definition postFormData_request (path : jsstring) (file : list N) : Request :=
  mkRequest POST path None (FormBody file).

Definition postFormData_settle (f : FetchOutcome) : Completion json :=
  match f with
  | Rejected e => Throw e
  | Responded r =>
      if negb (ok r) then
        Throw (ApiError (or_else (body_text r) (js "Upload failed"))
                 (Some (status r)))
      else body_json r
  end.

(** The entry points against a network that answers each request. *)
Section Network.
Variable fetch : Request -> FetchOutcome.

Definition get (path : jsstring) : Completion json :=
  get_settle (fetch (get_request path)).

Definition postJson (now : N) (path : jsstring) (payload : json)
  : Completion ApiResponse :=
  postJson_settle now (fetch (postJson_request path payload)).

Definition postFormData (path : jsstring) (file : list N) : Completion json :=
  postFormData_settle (fetch (postFormData_request path file)).
End Network.

End Client.
Import Client.

(** ** The download trigger ([utils/download.ts]) *)

Module Download.

(** The anchor element the helper builds. *)
Record Link : Type := mkLink {
  href : N;
  download : jsstring
}.

(** The part of the browser the helper touches: the object URLs that are
    allocated and not yet revoked, the next URL to hand out, the children
    appended to the document body, and the saves initiated so far (file
    name and content). *)
Record Host : Type := mkHost {
  live_urls : list N;
  next_url : N;
  body_children : list Link;
  saves : list (jsstring * Blob)
}.

(** Which of the host calls throws, if any. *)
Record Faults : Type := mkFaults {
  createObjectURL_throws : option Exn;
  appendChild_throws : option Exn;
  click_throws : option Exn;
  removeChild_throws : option Exn
}.

Definition no_faults : Faults := mkFaults None None None None.

Definition link_eqb (a b : Link) : bool :=
  (href a =? href b) && jseqb (download a) (download b).

Fixpoint remove_first {A} (eqb : A -> A -> bool) (x : A) (l : list A) : list A :=
  match l with
  | [] => []
  | y :: l' => if eqb x y then l' else y :: remove_first eqb x l'
  end.

(** [window.URL.createObjectURL(blob)] *)
Definition createObjectURL (h : Host) : Host * N :=
  (mkHost (next_url h :: live_urls h) (next_url h + 1)
     (body_children h) (saves h),
   next_url h).

(** [document.body.appendChild(link)] *)
Definition appendChild (l : Link) (h : Host) : Host :=
  mkHost (live_urls h) (next_url h) (body_children h ++ [l]) (saves h).

(** [link.click()]: the browser starts saving the URL's content under the
    link's download name. *)
Definition click (l : Link) (b : Blob) (h : Host) : Host :=
  mkHost (live_urls h) (next_url h) (body_children h)
    (saves h ++ [(download l, b)]).

(** [document.body.removeChild(link)] *)
Definition removeChild (l : Link) (h : Host) : Host :=
  mkHost (live_urls h) (next_url h)
    (remove_first link_eqb l (body_children h)) (saves h).

(** [window.URL.revokeObjectURL(url)] *)
Definition revokeObjectURL (u : N) (h : Host) : Host :=
  mkHost (filter (λ v, v ≠ u) (live_urls h)) (next_url h)
    (body_children h) (saves h).

(** [downloadFromApi(response)]: the data of a JSON response, or nothing
    after the save of a file response.  The statements run in order and a
    throwing one ends the call there. *)
Definition downloadFromApi (now : N) (fl : Faults) (response : ApiResponse)
    (h : Host) : Host * Completion (option json) :=
  match response with
  | JsonResponse data _ => (h, Return (Some data))
  | FileResponse blob fileName _ _ =>
      match createObjectURL_throws fl with
      | Some e => (h, Throw e)
      | None =>
          let '(h1, blobUrl) := createObjectURL h in
          let link := mkLink blobUrl (or_else fileName (fallback_name now)) in
          match appendChild_throws fl with
          | Some e => (h1, Throw e)
          | None =>
              let h2 := appendChild link h1 in
              match click_throws fl with
              | Some e => (h2, Throw e)
              | None =>
                  let h3 := click link blob h2 in
                  match removeChild_throws fl with
                  | Some e => (h3, Throw e)
                  | None =>
                      let h4 := removeChild link h3 in
                      (revokeObjectURL blobUrl h4, Return None)
                  end
              end
          end
      end
  end.

(** The URL the call allocates is the host's next one. *)
Definition allocated_url (h : Host) : N := next_url h.

End Download.
Import Download.

(** ** The generation controllers
    ([AssessmentCreator], [LessonPlanner], [ContentGenerator]) *)

Module Controller.

Inductive Feature : Type := Assessment | LessonPlan | Content.

Inductive FormatOption : Type := FormatJson | FormatDocx | FormatPdf.

Definition format_name (f : FormatOption) : jsstring :=
  match f with
  | FormatJson => js "json"
  | FormatDocx => js "docx"
  | FormatPdf => js "pdf"
  end.

Inductive ViewMode : Type := Preview | RawJson.

(** The form fields of the three components; each reads its own. *)
Record Form : Type := mkForm {
  topic : jsstring;
  language : jsstring;
  format : FormatOption;
  selectedDocs : list jsstring;
  courseName : jsstring;
  state : jsstring;
  startDate : jsstring;
  contentType : jsstring;
  tone : jsstring;
  audience : jsstring;
  lengthOption : jsstring;
  includePractice : bool
}.

(** The state a controller keeps about its submissions. *)
Record Ctl : Type := mkCtl {
  result : option json;
  lastDownload : option jsstring;
  loading : bool;
  error : option jsstring;
  viewMode : ViewMode
}.

Definition initial : Ctl := mkCtl None None false None Preview.

Definition setResult (v : option json) (c : Ctl) : Ctl :=
  mkCtl v (lastDownload c) (loading c) (error c) (viewMode c).
Definition setLastDownload (v : option jsstring) (c : Ctl) : Ctl :=
  mkCtl (result c) v (loading c) (error c) (viewMode c).
Definition setLoading (v : bool) (c : Ctl) : Ctl :=
  mkCtl (result c) (lastDownload c) v (error c) (viewMode c).
Definition setError (v : option jsstring) (c : Ctl) : Ctl :=
  mkCtl (result c) (lastDownload c) (loading c) v (viewMode c).
Definition setViewMode (v : ViewMode) (c : Ctl) : Ctl :=
  mkCtl (result c) (lastDownload c) (loading c) (error c) v.

Definition endpoint (ft : Feature) : jsstring :=
  match ft with
  | Assessment => js "/create/assessment"
  | LessonPlan => js "/create/lesson_plan"
  | Content => js "/create/content"
  end.

Definition docs_json (docs : list jsstring) : json := JArr (map JStr docs).

Definition payload (ft : Feature) (f : Form) : json :=
  match ft with
  | Assessment =>
      JObj [ (js "query", JStr (trim (topic f)));
             (js "language", JStr (language f));
             (js "output_format", JStr (format_name (format f)));
             (js "selected_documents", docs_json (selectedDocs f)) ]
  | LessonPlan =>
      JObj [ (js "query", JStr (trim (topic f)));
             (js "course_name", JStr (trim (courseName f)));
             (js "state", JStr (state f));
             (js "start_date", JStr (startDate f));
             (js "language", JStr (language f));
             (js "output_format", JStr (format_name (format f)));
             (js "selected_documents", docs_json (selectedDocs f)) ]
  | Content =>
      JObj [ (js "query", JStr (trim (topic f)));
             (js "content_type", JStr (contentType f));
             (js "audience",
               JStr (or_else (trim (audience f))
                       (js "Front Desk Associate trainees")));
             (js "tone", JStr (tone f));
             (js "length", JStr (lengthOption f));
             (js "include_practice", JBool (includePractice f));
             (js "language", JStr (language f));
             (js "output_format", JStr (format_name (format f)));
             (js "selected_documents", docs_json (selectedDocs f)) ]
  end.

Definition no_docs (f : Form) : bool :=
  match selectedDocs f with [] => true | _ :: _ => false end.

(** The local checks at the head of [handleSubmit]: the message of the
    first one that fails. *)
Definition validate (ft : Feature) (f : Form) : option jsstring :=
  match ft with
  | Assessment =>
      if no_docs f
      then Some (js "Please choose at least one knowledge base document.")
      else None
  | LessonPlan =>
      if negb (truthy (trim (topic f)))
      then Some (js "Please describe the lesson plan focus area.")
      else if no_docs f
      then Some (js "Select at least one document to ground the lesson plan.")
      else None
  | Content =>
      if negb (truthy (trim (topic f)))
      then Some (js "Please describe the content you need.")
      else if no_docs f
      then Some (js "Select at least one knowledge base document to ground the content.")
      else None
  end.

(** The message shown when the thrown value is not an [Error]. *)
Definition failure_text (ft : Feature) : jsstring :=
  match ft with
  | Assessment => js "Failed to generate assessment."
  | LessonPlan => js "Failed to generate lesson plan."
  | Content => js "Failed to generate learning content."
  end.

(** [handleSubmit] up to its [await postJson]: the new state, and the
    request sent, if any. *)
Definition handleSubmit_begin (ft : Feature) (f : Form) (c : Ctl)
  : Ctl * option Request :=
  let c := setError None c in
  let c := setLastDownload None c in
  let c := setViewMode Preview c in
  match validate ft f with
  | Some msg => (setError (Some msg) c, None)
  | None =>
      (setLoading true c, Some (postJson_request (endpoint ft) (payload ft f)))
  end.

(** What one settlement brings: the outcome of [fetch], the clock as
    [parseFileName] and [downloadFromApi] read it, and the host calls
    that throw. *)
Record Settlement : Type := mkSettlement {
  outcome : FetchOutcome;
  clock_parse : N;
  clock_download : N;
  faults : Faults
}.

(** [handleSubmit] from the point where [postJson] settles. *)
Definition handleSubmit_settle (ft : Feature) (s : Settlement)
    (c : Ctl) (h : Host) : Ctl * Host :=
  match postJson_settle (clock_parse s) (outcome s) with
  | Return (JsonResponse data r) =>
      (setLoading false (setResult (Some data) c), h)
  | Return (FileResponse blob fileName mimeType r as response) =>
      match downloadFromApi (clock_download s) (faults s) response h with
      | (h', Return _) =>
          (setLoading false
             (setResult None (setLastDownload (Some fileName) c)), h')
      | (h', Throw e) =>
          (setLoading false
             (setError (Some (message_or (failure_text ft) e)) c), h')
      end
  | Throw e =>
      (setLoading false
         (setError (Some (message_or (failure_text ft) e)) c), h)
  end.

(** The submit button carries [disabled={loading}]. *)
Definition submit_disabled (c : Ctl) : bool := loading c.

(** A controller in its surroundings: its state, the browser, and the
    requests it has sent, oldest first. *)
Record World : Type := mkWorld {
  ctl : Ctl;
  host : Host;
  calls : list Request
}.

Inductive Event : Type :=
| Submit (f : Form)
| Settle (s : Settlement).

Definition step (ft : Feature) (w : World) (ev : Event) : World :=
  match ev with
  | Submit f =>
      match handleSubmit_begin ft f (ctl w) with
      | (c, Some rq) => mkWorld c (host w) (calls w ++ [rq])
      | (c, None) => mkWorld c (host w) (calls w)
      end
  | Settle s =>
      let '(c, h) := handleSubmit_settle ft s (ctl w) (host w) in
      mkWorld c h (calls w)
  end.

Definition run (ft : Feature) (evs : list Event) (w : World) : World :=
  fold_left (step ft) evs w.

(** A press of the submit button: nothing happens while it is disabled. *)
Definition press_submit (ft : Feature) (f : Form) (w : World) : World :=
  if submit_disabled (ctl w) then w else step ft w (Submit f).

(** The exception a settlement ends in, if any: thrown by the gateway, or
    by the download helper on a file response. *)
Definition settle_failure (s : Settlement) (h : Host) : option Exn :=
  match postJson_settle (clock_parse s) (outcome s) with
  | Throw e => Some e
  | Return (JsonResponse _ _) => None
  | Return (FileResponse _ _ _ _ as response) =>
      match snd (downloadFromApi (clock_download s) (faults s) response h) with
      | Throw e => Some e
      | Return _ => None
      end
  end.

(** One submission from its start to its end: a submission the local
    checks refuse ends there, another ends when its call settles. *)
Definition submission (ft : Feature) (f : Form) (s : Settlement) : list Event :=
  match validate ft f with
  | Some _ => [Submit f]
  | None => [Submit f; Settle s]
  end.

(** The message a failed submission shows: the local check's, or the one
    taken from the exception. *)
Definition failure_message (ft : Feature) (f : Form) (s : Settlement)
    (h : Host) : option jsstring :=
  match validate ft f with
  | Some msg => Some msg
  | None => message_or (failure_text ft) <$> settle_failure s h
  end.

End Controller.
Import Controller.

(** ** Readiness: the upload panel ([DataConfigurationPanel]) and the
    [dataStatus] of [App] *)

Module Readiness.

Inductive UploadType : Type := courses | holidays | guidelines.

Definition UploadType_eqb (a b : UploadType) : bool :=
  match a, b with
  | courses, courses | holidays, holidays | guidelines, guidelines => true
  | _, _ => false
  end.

(** [dataStatus] *)
Record DataStatus : Type := mkDataStatus {
  st_courses : bool;
  st_holidays : bool;
  st_guidelines : bool;
  documentCount : N
}.

Definition initial_status : DataStatus := mkDataStatus false false false 0.

(** The readiness flag of an upload type. *)
Definition ready (t : UploadType) (d : DataStatus) : bool :=
  match t with
  | courses => st_courses d
  | holidays => st_holidays d
  | guidelines => st_guidelines d
  end.

(** [Partial<typeof dataStatus>]: the keys an update carries. *)
Record StatusUpdate : Type := mkStatusUpdate {
  up_courses : option bool;
  up_holidays : option bool;
  up_guidelines : option bool;
  up_documentCount : option N
}.

(** [{ [type]: true }] *)
Definition flag_update (t : UploadType) : StatusUpdate :=
  match t with
  | courses => mkStatusUpdate (Some true) None None None
  | holidays => mkStatusUpdate None (Some true) None None
  | guidelines => mkStatusUpdate None None (Some true) None
  end.

(** [handleStatusChange]: [{ ...prev, ...update }] *)
Definition handleStatusChange (update : StatusUpdate) (prev : DataStatus)
  : DataStatus :=
  mkDataStatus
    (default (st_courses prev) (up_courses update))
    (default (st_holidays prev) (up_holidays update))
    (default (st_guidelines prev) (up_guidelines update))
    (default (documentCount prev) (up_documentCount update)).

(** [HealthStatus], the counters of [GET /health]. *)
Record HealthStatus : Type := mkHealth {
  courses_loaded : Z;
  states_with_holidays : Z;
  guidelines_loaded : bool
}.

(** The update [initialise] applies when [/health] has answered. *)
Definition health_sync (hs : HealthStatus) (prev : DataStatus) : DataStatus :=
  mkDataStatus
    (0 <? courses_loaded hs)%Z
    (0 <? states_with_holidays hs)%Z
    (guidelines_loaded hs)
    (documentCount prev).

(** The update [initialise] applies when [/get_documents] has answered. *)
Definition documents_sync (n : N) (prev : DataStatus) : DataStatus :=
  mkDataStatus (st_courses prev) (st_holidays prev) (st_guidelines prev) n.

Definition upload_endpoint (t : UploadType) : jsstring :=
  match t with
  | courses => js "/upload/course_data"
  | holidays => js "/upload/holidays"
  | guidelines => js "/upload/guidelines"
  end.

(** [a || b || fallback] over two properties of the answer. *)
Definition field_or (payload : json) (k1 k2 : option jsstring)
    (fallback : jsstring) : json :=
  let first := k ← k1; get_prop k payload in
  let second := k ← k2; get_prop k payload in
  opt_or first (opt_or second (JStr fallback)).

(** A template literal with one hole: the value is converted with
    ToString. *)
Definition template (before : jsstring) (v : json) (after : jsstring)
  : Completion jsstring :=
  match ToString v with
  | Return text => Return (before ++ text ++ after)
  | Throw e => Throw e
  end.

(** [uploadConfig[type].successMessage(payload)]; reading a property of a
    [null] answer throws. *)
Definition successMessage (t : UploadType) (payload : json)
  : Completion jsstring :=
  match payload with
  | JNull => Throw (TypeError (js "Cannot read properties of null"))
  | _ =>
      match t with
      | courses =>
          template (js "Loaded ")
            (field_or payload (Some (js "courses_loaded"))
               (Some (js "records_loaded")) (js "the uploaded"))
            (js " courses.")
      | holidays =>
          template (js "Loaded holiday data for ")
            (field_or payload (Some (js "states_loaded"))
               (Some (js "regions_loaded")) (js "the uploaded"))
            (js " regions.")
      | guidelines =>
          template (js "Guidelines imported (")
            (field_or payload (Some (js "guidelines_length"))
               None (js "unknown"))
            (js " characters).")
      end
  end.

(** The panel's own state. *)
Record Panel : Type := mkPanel {
  uploading : UploadType -> bool;
  message : option jsstring;
  panel_error : option jsstring
}.

Definition initial_panel : Panel := mkPanel (λ _, false) None None.

Definition setUploading (t : UploadType) (v : bool) (p : Panel) : Panel :=
  mkPanel (λ u, if UploadType_eqb u t then v else uploading p u)
    (message p) (panel_error p).

(** [handleUpload] up to its [await postFormData]. *)
Definition handleUpload_begin (t : UploadType) (file : list N) (p : Panel)
  : Panel * Request :=
  let p := setUploading t true p in
  (mkPanel (uploading p) None None,
   postFormData_request (upload_endpoint t) file).

(** [handleUpload] from the point where [postFormData] settles. *)
Definition handleUpload_settle (t : UploadType) (f : FetchOutcome)
    (p : Panel) (d : DataStatus) : Panel * DataStatus :=
  let fallback := js "Upload failed. Please try again." in
  let '(p', d') :=
    match postFormData_settle f with
    | Return response =>
        let d' := handleStatusChange (flag_update t) d in
        match successMessage t response with
        | Return m => (mkPanel (uploading p) (Some m) (panel_error p), d')
        | Throw e =>
            (mkPanel (uploading p) (message p)
               (Some (message_or fallback e)), d')
        end
    | Throw e =>
        (mkPanel (uploading p) (message p) (Some (message_or fallback e)), d)
    end in
  (setUploading t false p', d').

(** The upload succeeded: the gateway returned the server's answer. *)
Definition upload_succeeds (f : FetchOutcome) : bool :=
  returns (postFormData_settle f).

(** What changes [dataStatus] over the life of the page. *)
Inductive StatusEvent : Type :=
| UploadSettled (t : UploadType) (f : FetchOutcome)
| HealthAnswered (hs : HealthStatus)
| DocumentsAnswered (n : N).

Definition status_step (pd : Panel * DataStatus) (ev : StatusEvent)
  : Panel * DataStatus :=
  match ev with
  | UploadSettled t f => handleUpload_settle t f (fst pd) (snd pd)
  | HealthAnswered hs => (fst pd, health_sync hs (snd pd))
  | DocumentsAnswered n => (fst pd, documents_sync n (snd pd))
  end.

Definition status_run (evs : list StatusEvent) (pd : Panel * DataStatus)
  : Panel * DataStatus :=
  fold_left status_step evs pd.

Definition is_upload (ev : StatusEvent) : bool :=
  match ev with UploadSettled _ _ => true | _ => false end.

(** A run of settled uploads, nothing else touching [dataStatus]. *)
Definition uploads_run (ups : list (UploadType * FetchOutcome))
    (pd : Panel * DataStatus) : Panel * DataStatus :=
  status_run (map (λ tf, UploadSettled (fst tf) (snd tf)) ups) pd.

End Readiness.
Import Readiness.

(** ** Location defaults ([fetchLocation] and the geolocation effect of [App]) *)

Module Location.

Inductive LocationSource : Type := SourceUnknown | SourceIp | SourceBrowser.

(** The coordinates the sensor reports, two numbers. *)
Record Coords : Type := mkCoords { lat : Number; lon : Number }.

Record LocState : Type := mkLocState {
  location : option json;
  locationSource : LocationSource;
  geolocationDenied : bool
}.

Definition initial_loc : LocState := mkLocState None SourceUnknown false.

(** The payload of [POST /detect_location]. *)
Definition location_payload (coords : option Coords) : json :=
  match coords with
  | Some c => JObj [ (js "lat", JNum (lat c)); (js "lon", JNum (lon c)) ]
  | None => JObj []
  end.

Definition fetchLocation_request (coords : option Coords) : Request :=
  postJson_request (js "/detect_location") (location_payload coords).

(** [fetchLocation(coords)] from the point where [postJson] settles. *)
Definition fetchLocation_settle (coords : option Coords) (now : N)
    (f : FetchOutcome) (s : LocState) : LocState :=
  match postJson_settle now f with
  | Return (JsonResponse data _) =>
      mkLocState (Some data)
        (match coords with Some _ => SourceBrowser | None => SourceIp end)
        (match coords with Some _ => false | None => geolocationDenied s end)
  | Return (FileResponse _ _ _ _) => s
  | Throw _ =>
      match coords with
      | Some _ => mkLocState (location s) (locationSource s) true
      | None => mkLocState (location s) SourceUnknown (geolocationDenied s)
      end
  end.

(** [GeolocationPositionError] codes. *)
Definition PERMISSION_DENIED : N := 1.
Definition POSITION_UNAVAILABLE : N := 2.
Definition TIMEOUT : N := 3.

(** The error callback handed to [getCurrentPosition]. *)
Definition on_geo_error (code : N) (s : LocState) : LocState :=
  if code =? PERMISSION_DENIED
  then mkLocState (location s) (locationSource s) true
  else s.

(** [location?.location?.state || "Corporate"], over the stored answer. *)
Definition suggestedState (s : LocState) : jsstring :=
  to_string
    (opt_or (d ← location s; l ← get_prop (js "location") d;
             get_prop (js "state") l)
       (JStr (js "Corporate"))).

(** [location?.suggested_language || "English"] *)
Definition suggestedLanguage (s : LocState) : jsstring :=
  to_string
    (opt_or (d ← location s; get_prop (js "suggested_language") d)
       (JStr (js "English"))).

End Location.
Import Location.

(** ** What a controller puts on the page *)

Module View.

(** The three conditional blocks below the form: each is rendered when the
    state it reads is truthy. *)
Record Shown : Type := mkShown {
  error_alert : bool;
  download_notice : bool;
  result_panel : bool
}.

Definition opt_truthy (o : option jsstring) : bool :=
  match o with
  | Some s => truthy s
  | None => false
  end.

Definition render (c : Ctl) : Shown :=
  mkShown (opt_truthy (error c)) (opt_truthy (lastDownload c))
    (match result c with
     | Some v => json_truthy v
     | None => false
     end).

End View.
Import View.

(** ** A controller driven through its submit button *)

Module Button.

(** The controller with the number of its calls that have not settled. *)
Record Session : Type := mkSession {
  world : World;
  pending : nat
}.

Inductive UiEvent : Type :=
| Press (f : Form)
| Answer (s : Settlement).

(** A press submits the form unless the button is disabled; an answer
    arrives only for a call in flight. *)
Definition ui_step (ft : Feature) (ss : Session) (ev : UiEvent) : Session :=
  match ev with
  | Press f =>
      if submit_disabled (ctl (world ss)) then ss
      else
        mkSession (step ft (world ss) (Submit f))
          (match snd (handleSubmit_begin ft f (ctl (world ss))) with
           | Some _ => S (pending ss)
           | None => pending ss
           end)
  | Answer s =>
      match pending ss with
      | O => ss
      | S n => mkSession (step ft (world ss) (Settle s)) n
      end
  end.

Definition ui_run (ft : Feature) (evs : list UiEvent) (ss : Session) : Session :=
  fold_left (ui_step ft) evs ss.

(** The requests a list of events hands to the gateway, in order. *)
Definition requests_of (ft : Feature) (evs : list Event) : list Request :=
  omap (λ ev, match ev with
              | Submit f =>
                  match validate ft f with
                  | None => Some (postJson_request (endpoint ft) (payload ft f))
                  | Some _ => None
                  end
              | Settle _ => None
              end) evs.

End Button.
Import Button.

(** ** Start-up ([initialise] of [App]) *)

Module Startup.

(** [DocumentsResponse]; the code allows for a missing [documents]. *)
Record DocumentsResponse : Type := mkDocs {
  docs_documents : option (list jsstring)
}.

Record AppState : Type := mkApp {
  documents : list jsstring;
  app_loading : bool;
  app_error : option jsstring;
  health : option HealthStatus;
  dataStatus : DataStatus;
  loc : LocState
}.

Definition initial_app : AppState :=
  mkApp [] true None None initial_status initial_loc.

(** [get<T>(path)]: the decoded body read at type [T] (the cast checks
    nothing); [None] is [null]. *)
Definition get_as {T : Type} (view : json -> option T) (f : FetchOutcome)
  : Completion (option T) :=
  match get_settle f with
  | Return v => Return (view v)
  | Throw e => Throw e
  end.

Section Typed.
Variable as_documents : json -> option DocumentsResponse.
Variable as_health : json -> option HealthStatus.

(** [initialise] up to its [Promise.all]. *)
Definition initialise_begin (a : AppState) : AppState * list Request :=
  (mkApp (documents a) true None (health a) (dataStatus a) (loc a),
   [get_request (js "/get_documents"); get_request (js "/health")]).

(** [initialise] from the answers of the two requests to its
    [await fetchLocation()], or to its end when the documents request
    failed; a failed health request counts as [null]. *)
Definition initialise_answers (fd fh : FetchOutcome) (a : AppState)
  : AppState * option Request :=
  match get_as as_documents fd with
  | Throw e =>
      (mkApp (documents a) false
         (Some (message_or (js "Unable to load initial data.") e))
         (health a) (dataStatus a) (loc a),
       None)
  | Return docs =>
      let healthRes :=
        match get_as as_health fh with
        | Return h => h
        | Throw _ => None
        end in
      let listed := default [] (docs ≫= docs_documents) in
      let status :=
        documents_sync (N.of_nat (List.length listed)) (dataStatus a) in
      match healthRes with
      | Some hs =>
          (mkApp listed (app_loading a) (app_error a) (Some hs)
             (health_sync hs status) (loc a),
           Some (fetchLocation_request None))
      | None =>
          (mkApp listed (app_loading a) (app_error a) (health a) status (loc a),
           Some (fetchLocation_request None))
      end
  end.

(** [initialise] from the point where [fetchLocation()] has settled. *)
Definition initialise_end (now : N) (f : FetchOutcome) (a : AppState)
  : AppState :=
  mkApp (documents a) false (app_error a) (health a) (dataStatus a)
    (fetchLocation_settle None now f (loc a)).

End Typed.

End Startup.
Import Startup.

(** ** The personalised-learning upload ([PersonalizedLearning]) *)

Module Personalized.

Record PL : Type := mkPL {
  file : option (list N);
  pl_loading : bool;
  pl_error : option jsstring;
  pl_result : option json
}.

Definition initial_pl : PL := mkPL None false None None.

(** The file input's [onChange]: a chosen file replaces the old one and
    clears the report. *)
Definition choose_file (selected : option (list N)) (p : PL) : PL :=
  match selected with
  | Some bytes => mkPL (Some bytes) (pl_loading p) (pl_error p) None
  | None => p
  end.

(** [handleUpload] up to its [await postFormData]. *)
Definition handleUpload_begin (p : PL) : PL * option Request :=
  match file p with
  | None =>
      (mkPL (file p) (pl_loading p)
         (Some (js "Please choose a CSV or Excel file with assessment data."))
         (pl_result p),
       None)
  | Some bytes =>
      (mkPL (file p) true None (pl_result p),
       Some (postFormData_request (js "/process/assessment_and_email") bytes))
  end.

(** [handleUpload] from the point where [postFormData] settles. *)
Definition handleUpload_settle (f : FetchOutcome) (p : PL) : PL :=
  match postFormData_settle f with
  | Return response => mkPL (file p) false (pl_error p) (Some response)
  | Throw e =>
      mkPL (file p) false
        (Some (message_or (js "Failed to process assessment data.") e))
        (pl_result p)
  end.

End Personalized.

(** ** The document selector ([DocumentSelector]) *)

Module Selector.

Section Lower.
(** [String.prototype.toLowerCase], the host's. *)
Variable toLowerCase : jsstring -> jsstring.

(** [filteredDocs] *)
Definition filteredDocs (documents : list jsstring) (search : jsstring)
  : list jsstring :=
  if negb (truthy search) then documents
  else
    let term := toLowerCase search in
    filter (λ doc, includes term (toLowerCase doc) = true) documents.

End Lower.

(** Lower case for the ASCII letters, other code units kept. *)
Definition ascii_lower (s : jsstring) : jsstring :=
  map (λ c, if (65 <=? c) && (c <=? 90) then c + 32 else c) s.

End Selector.
Import Selector.

(** * Sample data *)

Module Samples.

(** The quoted empty file name: [attachment; filename=], then two double
    quotes. *)
Definition header_empty_quoted : jsstring :=
  js "attachment; filename=" ++ [34; 34].


Definition quoted (s : jsstring) : jsstring := [34] ++ s ++ [34].

(** A body of ASCII text: its octets are its code units. *)
Definition text_blob (text type : jsstring) : Blob := mkBlob text type.

Definition json_headers : gmap string jsstring :=
  {[ "content-type" := js "application/json" ]}.

(** 200 with a JSON content type and a body that is not JSON. *)
Definition resp_html_as_json : Response :=
  mkResponse 200 (js "OK") json_headers
    (Throw (SyntaxError (js "Unexpected token '<'")))
    (js "<html>") (text_blob (js "<html>") (js "application/json")).

(** 200 with a PDF and its disposition header. *)
Definition pdf_disposition : jsstring :=
  js "attachment; filename=" ++ quoted (js "plan.pdf").

Definition resp_pdf : Response :=
  mkResponse 200 (js "OK")
    (<["content-disposition" := pdf_disposition]>
       {[ "content-type" := js "application/pdf" ]})
    (Throw (SyntaxError (js "Unexpected token '%'")))
    (js "%PDF") (text_blob (js "%PDF") (js "application/pdf")).

(** 200 with a JSON answer carrying [english_answer]. *)
Definition answer (text : string) : json :=
  JObj [ (js "english_answer", JStr (js text)) ].

Definition answer_text (text : string) : jsstring :=
  js "{" ++ quoted (js "english_answer") ++ js ":" ++ quoted (js text) ++ js "}".

Definition resp_answer (text : string) : Response :=
  mkResponse 200 (js "OK") json_headers (Return (answer text))
    (answer_text text) (text_blob (answer_text text) (js "application/json")).

(** 404 whose JSON body carries an [error] field. *)
Definition boom_text : jsstring :=
  js "{" ++ quoted (js "error") ++ js ":" ++ quoted (js "boom") ++ js "}".

Definition resp_404_error : Response :=
  mkResponse 404 (js "Not Found") json_headers
    (Return (JObj [ (js "error", JStr (js "boom")) ]))
    boom_text (text_blob boom_text (js "application/json")).

(** 400 with an empty body. *)
Definition resp_400_empty : Response :=
  mkResponse 400 (js "Bad Request") ∅
    (Throw (SyntaxError (js "Unexpected end of JSON input")))
    [] (text_blob [] []).

(** A browser with nothing allocated. *)
Definition host0 : Host := mkHost [] 0 [] [].

Definition click_fault : Faults :=
  mkFaults None None (Some (TypeError (js "click failed"))) None.

Definition form0 (docs : list jsstring) : Form :=
  mkForm (js "front desk greetings") (js "English") FormatJson docs
    [] (js "Corporate") [] (js "Learner handout") (js "Friendly")
    (js "Front Desk Associate trainees") (js "Medium") true.

Definition world0 : World := mkWorld initial host0 [].

(** A controller that shows the result of an earlier submission. *)
Definition world_with_result : World :=
  mkWorld (mkCtl (Some (answer "old")) None false None Preview) host0 [].

Definition settles_with (r : Response) : Settlement :=
  mkSettlement (Responded r) 0 0 no_faults.

Definition unreachable : Settlement :=
  mkSettlement (Rejected (TypeError (js "Failed to fetch"))) 0 0 no_faults.

(** 200 answering an upload of course data. *)
Definition upload_text : jsstring :=
  js "{" ++ quoted (js "courses_loaded") ++ js ":12}".

Definition resp_upload_ok : Response :=
  mkResponse 200 (js "OK") json_headers
    (Return (JObj [ (js "courses_loaded", JNum (mkNumber false (js "12"))) ]))
    upload_text (text_blob upload_text (js "application/json")).

(** 500 answering an upload. *)
Definition resp_upload_failed : Response :=
  mkResponse 500 (js "Internal Server Error") ∅
    (Throw (SyntaxError (js "Unexpected token 'd'")))
    (js "disk full") (text_blob (js "disk full") (js "text/plain")).

(** The answer of the location lookup for an address in Maharashtra. *)
Definition maharashtra : json :=
  JObj [ (js "location",
           JObj [ (js "state", JStr (js "Maharashtra"));
                  (js "detected", JBool true) ]);
         (js "suggested_language", JStr (js "Marathi")) ].

Definition maharashtra_text : jsstring :=
  js "{" ++ quoted (js "location") ++ js ":{"
  ++ quoted (js "state") ++ js ":" ++ quoted (js "Maharashtra") ++ js ","
  ++ quoted (js "detected") ++ js ":true},"
  ++ quoted (js "suggested_language") ++ js ":" ++ quoted (js "Marathi")
  ++ js "}".

Definition resp_maharashtra : Response :=
  mkResponse 200 (js "OK") json_headers (Return maharashtra)
    maharashtra_text (text_blob maharashtra_text (js "application/json")).

(** 200 with a file whose disposition header carries an escape that does
    not decode. *)
Definition resp_bad_disposition : Response :=
  mkResponse 200 (js "OK")
    (<["content-disposition" := js "attachment; filename*=UTF-8''%ZZ"]>
       {[ "content-type" := js "application/pdf" ]})
    (Throw (SyntaxError (js "Unexpected token '%'")))
    (js "%PDF") (text_blob (js "%PDF") (js "application/pdf")).

(** The views a typed [get] takes of a decoded body, for bodies of the
    expected shape. *)
Definition sample_as_documents (v : json) : option DocumentsResponse :=
  match v with
  | JNull => None
  | _ =>
      Some (mkDocs
              match get_prop (js "documents") v with
              | Some (JArr items) =>
                  Some (omap (λ i, match i with JStr d => Some d | _ => None end)
                          items)
              | _ => None
              end)
  end.

(** The sign of a counter, which is all the code reads of it. *)
Definition counter_of (o : option json) : Z :=
  match o with
  | Some (JNum n) =>
      if num_falsy n then 0%Z
      else if startsWith (js "-") (num_text n) then (-1)%Z
      else 1%Z
  | _ => 0%Z
  end.

Definition sample_as_health (v : json) : option HealthStatus :=
  match v with
  | JNull => None
  | _ =>
      Some (mkHealth
              (counter_of (get_prop (js "courses_loaded") v))
              (counter_of (get_prop (js "states_with_holidays") v))
              match get_prop (js "guidelines_loaded") v with
              | Some (JBool b) => b
              | _ => false
              end)
  end.

(** 200 listing two documents. *)
Definition documents_text : jsstring :=
  js "{" ++ quoted (js "documents") ++ js ":["
  ++ quoted (js "guide.pdf") ++ js "," ++ quoted (js "handbook.pdf") ++ js "]}".

Definition resp_documents : Response :=
  mkResponse 200 (js "OK") json_headers
    (Return (JObj [ (js "documents",
                      JArr [JStr (js "guide.pdf"); JStr (js "handbook.pdf")]) ]))
    documents_text (text_blob documents_text (js "application/json")).

(** 200 with a JSON [null] body. *)
Definition resp_null : Response :=
  mkResponse 200 (js "OK") json_headers (Return JNull)
    (js "null") (text_blob (js "null") (js "application/json")).

(** Coordinates near Ahmedabad. *)
Definition ahmedabad : Coords :=
  mkCoords (mkNumber false (js "23.03")) (mkNumber false (js "72.58")).

(** The location answer of a browser lookup. *)
Definition gujarat : json :=
  JObj [ (js "location",
           JObj [ (js "state", JStr (js "Gujarat"));
                  (js "detected", JBool true) ]);
         (js "suggested_language", JStr (js "Gujarati")) ].

Definition gujarat_text : jsstring :=
  js "{" ++ quoted (js "location") ++ js ":{"
  ++ quoted (js "state") ++ js ":" ++ quoted (js "Gujarat") ++ js ","
  ++ quoted (js "detected") ++ js ":true},"
  ++ quoted (js "suggested_language") ++ js ":" ++ quoted (js "Gujarati")
  ++ js "}".

Definition resp_gujarat : Response :=
  mkResponse 200 (js "OK") json_headers (Return gujarat)
    gujarat_text (text_blob gujarat_text (js "application/json")).

(** 500 whose JSON body carries an empty array as its [error] field. *)
Definition error_list_text : jsstring :=
  js "{" ++ quoted (js "error") ++ js ":[]}".

Definition resp_500_error_list : Response :=
  mkResponse 500 (js "Internal Server Error") json_headers
    (Return (JObj [ (js "error", JArr []) ]))
    error_list_text (text_blob error_list_text (js "application/json")).

End Samples.
Import Samples.

(** * Properties *)

Example parseFileName_plain :
  parseFileName 5 (Some (js "attachment; filename=" ++ [34] ++ js "plan.pdf" ++ [34]))
  = Return (js "plan.pdf").
Proof. vm_compute. reflexivity. Qed.

Example parseFileName_extended :
  parseFileName 5 (Some (js "attachment; filename*=UTF-8''%E8%A1%A8.pdf"))
  = Return (0x8868 :: js ".pdf").
Proof. vm_compute. reflexivity. Qed.

Example parseFileName_absent :
  parseFileName 1700000000000 None = Return (js "download-1700000000000").
Proof. vm_compute. reflexivity. Qed.

(** ** The filename resolver *)

Lemma regex_exec_nil : regex_exec [] = None.
Proof. reflexivity. Qed.

Lemma regex_exec_truthy cd tok : regex_exec cd = Some tok -> truthy cd = true.
Proof. destruct cd; [discriminate | reflexivity]. Qed.

Lemma remove_quotes_no_quote v :
  Forall (λ c, c ≠ 34 ∧ c ≠ 39) (remove_quotes v).
Proof.
  unfold remove_quotes. apply Forall_forall. intros c Hc.
  apply list_elem_of_filter in Hc as [Hq _].
  unfold is_quote in Hq. apply orb_false_iff in Hq as [H1 H2].
  apply N.eqb_neq in H1, H2. done.
Qed.

Lemma remove_quotes_keeps v c :
  c ∈ remove_quotes v ↔ c ∈ v ∧ c ≠ 34 ∧ c ≠ 39.
Proof.
  unfold remove_quotes. rewrite list_elem_of_filter. unfold is_quote.
  rewrite orb_false_iff, !N.eqb_neq. tauto.
Qed.

(** Without a header, or with one the pattern does not match, the name is
    synthesized from the clock. *)
Lemma parseFileName_fallback now cd :
  match cd with None => True | Some s => regex_exec s = None end ->
  parseFileName now cd = Return (fallback_name now).
Proof.
  destruct cd as [s|]; [|reflexivity]. intros H. unfold parseFileName.
  destruct (truthy s); cbn [negb]; [|reflexivity]. by rewrite H.
Qed.

(** The resolver throws exactly when the trimmed token carries the
    extended prefix and its escapes do not decode. *)
Lemma parseFileName_throws_iff now cd :
  throws (parseFileName now cd) = true ↔
  ∃ s tok, cd = Some s ∧ regex_exec s = Some tok
           ∧ startsWith utf8_prefix (trim tok) = true
           ∧ decodeURIComponent (substring_from 7 (trim tok)) = None.
Proof.
  split.
  - destruct cd as [s|]; [|discriminate]. unfold parseFileName.
    destruct (truthy s); cbn [negb]; [|discriminate].
    destruct (regex_exec s) as [tok|] eqn:Hex; [|discriminate]. cbv zeta.
    destruct (startsWith utf8_prefix (trim tok)) eqn:Hp; [|discriminate].
    destruct (decodeURIComponent _) eqn:Hd; [discriminate|].
    intros _. by exists s, tok.
  - intros (s & tok & -> & Hex & Hp & Hd). unfold parseFileName.
    rewrite (regex_exec_truthy _ _ Hex). cbn [negb]. rewrite Hex. cbv zeta.
    by rewrite Hp, Hd.
Qed.

(** C6: the resolver does not return a string for every header: on an
    extended-encoding token whose percent-escapes are invalid, here
    [attachment; filename*=UTF-8''%ZZ], [decodeURIComponent] throws a
    [URIError] and [parseFileName] lets it escape, whatever the clock
    shows; an absent header and a header without a token do give a name. *)
Theorem parseFileName_invalid_escape_throws :
  ∀ now : N,
    parseFileName now (Some (js "attachment; filename*=UTF-8''%ZZ"))
    = Throw URIError
    ∧ parseFileName now None = Return (fallback_name now)
    ∧ parseFileName now (Some (js "attachment")) = Return (fallback_name now).
Proof.
  intros now. split; [|split].
  - vm_compute. reflexivity.
  - reflexivity.
  - apply parseFileName_fallback. vm_compute. reflexivity.
Qed.

(** The same header on a successful file response: the error escapes from
    the gateway as well, and no variant is returned. *)
Lemma handleResponse_bad_disposition_throws :
  ∀ now : N, handleResponse now resp_bad_disposition = Throw URIError.
Proof. intros now. vm_compute. reflexivity. Qed.

(** C10 (as amended): for every content-disposition header whose captured
    token, once trimmed, does not start with [UTF-8''], the resolver
    returns the trimmed token with every double and single quote removed,
    wherever it stands; a token made of quotes only gives the empty string,
    not a synthesized name. *)
Theorem parseFileName_plain_token :
  ∀ (now : N) (cd tok : jsstring),
    regex_exec cd = Some tok ->
    startsWith utf8_prefix (trim tok) = false ->
    parseFileName now (Some cd) = Return (remove_quotes (trim tok))
    ∧ (∀ c, c ∈ remove_quotes (trim tok) ↔ c ∈ trim tok ∧ c ≠ 34 ∧ c ≠ 39)
    ∧ parseFileName now (Some header_empty_quoted) = Return [].
Proof.
  intros now cd tok Hex Hp. split; [|split].
  - unfold parseFileName. rewrite (regex_exec_truthy _ _ Hex). cbn [negb].
    rewrite Hex. cbv zeta. by rewrite Hp.
  - apply remove_quotes_keeps.
  - vm_compute. reflexivity.
Qed.

Lemma parseFileName_plain_token_witness :
  parseFileName 7 (Some (js "attachment; filename='it''s.pdf' "))
  = Return (js "its.pdf").
Proof.
  refine (proj1 (parseFileName_plain_token 7
                   (js "attachment; filename='it''s.pdf' ")
                   (js "'it''s.pdf' ") _ _));
    vm_compute; reflexivity.
Defined.

(** C10, as first stated, fails: the prefix test reads the trimmed token.
    In [attachment; filename= UTF-8''%41] the captured token starts with a
    space, not with the prefix, and the resolver still decodes it. *)
Lemma parseFileName_prefix_after_space :
  regex_exec (js "attachment; filename= UTF-8''%41") = Some (js " UTF-8''%41")
  ∧ startsWith utf8_prefix (js " UTF-8''%41") = false
  ∧ parseFileName 7 (Some (js "attachment; filename= UTF-8''%41"))
    = Return (js "A")
  ∧ remove_quotes (trim (js " UTF-8''%41")) = js "UTF-8%41".
Proof. vm_compute. repeat split; reflexivity. Qed.

(** ** The transport gateway *)

Lemma or_else_truthy_string (a b : jsstring) :
  to_string (if json_truthy (JStr a) then JStr a else JStr b) = or_else a b.
Proof. unfold or_else. simpl. by destruct (truthy a). Qed.

Lemma handleResponse_ok now r :
  ok r = true ->
  handleResponse now r =
    if declares_json r then
      match body_json r with
      | Return data => Return (JsonResponse data r)
      | Throw e => Throw e
      end
    else
      match parseFileName now (headers_get "content-disposition" r) with
      | Return fileName =>
          Return (FileResponse (body_blob r) fileName (mime_of r) r)
      | Throw e => Throw e
      end.
Proof. intros Hok. unfold handleResponse. rewrite Hok. reflexivity. Qed.

Lemma handleResponse_not_ok now r :
  ok r = false ->
  handleResponse now r = Throw (error_thrown r).
Proof. intros Hok. unfold handleResponse. by rewrite Hok. Qed.

Lemma handleResponse_kind now r a :
  ok r = true ->
  handleResponse now r = Return a ->
  kind a = (if declares_json r then KindJson else KindFile) ∧ response_of a = r.
Proof.
  intros Hok. rewrite (handleResponse_ok _ _ Hok).
  destruct (declares_json r).
  - destruct (body_json r); [|done]. by intros [= <-].
  - destruct (parseFileName _ _); [|done]. by intros [= <-].
Qed.

(** C1 (as amended): for a successful response the gateway looks at the
    declared content type only.  If it contains [application/json] the
    result is the JSON variant with the decoded payload, or the decoder's
    error when the body does not decode; otherwise, whenever the filename
    resolver gives a name, the result is the file variant with the blob,
    the MIME type, the resolved name and the response itself (whose
    disposition header is the raw value).  A returned variant is the JSON
    one exactly when the content type declares JSON, and the payload of the
    request plays no part. *)
Theorem handleResponse_variant :
  ∀ (now : N) (r : Response),
    ok r = true ->
    (declares_json r = true ->
       handleResponse now r =
         match body_json r with
         | Return data => Return (JsonResponse data r)
         | Throw e => Throw e
         end)
    ∧ (declares_json r = false ->
       ∀ fileName,
         parseFileName now (headers_get "content-disposition" r) = Return fileName ->
         handleResponse now r =
           Return (FileResponse (body_blob r) fileName (mime_of r) r))
    ∧ (∀ a, handleResponse now r = Return a ->
         (kind a = KindJson ↔ declares_json r = true)
         ∧ (kind a = KindFile ↔ declares_json r = false)
         ∧ response_of a = r)
    ∧ (∀ (fetch : Request -> FetchOutcome) path p1 p2,
         fetch (postJson_request path p1) = Responded r ->
         fetch (postJson_request path p2) = Responded r ->
         postJson fetch now path p1 = handleResponse now r
         ∧ postJson fetch now path p2 = handleResponse now r).
Proof.
  intros now r Hok. split; [|split; [|split]].
  - intros Hj. by rewrite (handleResponse_ok _ _ Hok), Hj.
  - intros Hj fileName Hn. by rewrite (handleResponse_ok _ _ Hok), Hj, Hn.
  - intros a Ha. destruct (handleResponse_kind _ _ _ Hok Ha) as [Hk Hr].
    rewrite Hk. by destruct (declares_json r).
  - intros fetch path p1 p2 H1 H2. unfold postJson. by rewrite H1, H2.
Qed.

Lemma handleResponse_variant_witness :
  handleResponse 0 resp_pdf
  = Return (FileResponse (body_blob resp_pdf) (js "plan.pdf")
              (js "application/pdf") resp_pdf).
Proof.
  refine (proj1 (proj2 (handleResponse_variant 0 resp_pdf _)) _ _ _);
    vm_compute; reflexivity.
Defined.

(** C1, as first stated, fails: a successful response that declares JSON
    and whose body does not decode produces no variant at all, the
    decoder's error escapes from the gateway. *)
Lemma handleResponse_undecodable_json :
  ok resp_html_as_json = true
  ∧ declares_json resp_html_as_json = true
  ∧ handleResponse 0 resp_html_as_json
    = Throw (SyntaxError (js "Unexpected token '<'"))
  ∧ returns (handleResponse 0 resp_html_as_json) = false.
Proof. vm_compute. repeat split; reflexivity. Qed.

Lemma ToString_string_choice (a b : jsstring) :
  ToString (if json_truthy (JStr a) then JStr a else JStr b)
  = Return (or_else a b).
Proof. unfold or_else. simpl. by destruct (truthy a). Qed.

(** Whatever the fallback, the message read off the thrown error is the
    gateway's message. *)
Lemma message_of_error_thrown fallback r :
  message_or fallback (error_thrown r) = error_message r.
Proof.
  unfold error_message, error_thrown, ToString.
  by destruct (printable (error_value r)).
Qed.

(** C5 (as amended): on a response that is not ok every entry point fails,
    each with its own message.  The JSON POST throws what [error_thrown]
    builds: when the body is JSON and its [error] field is truthy and
    converts to a string, an [ApiError] with the status code whose message
    is that string, whatever it is; when the body is JSON without a truthy
    [error] field, an [ApiError] with the status text, or a fixed text when
    the status text is empty; when the body is not JSON, an [ApiError] with
    the raw text, else the status text, else the fixed text.  The
    form-data POST throws an [ApiError] with the raw text, or a fixed text
    when it is empty.  The GET throws an [ApiError] with the status text. *)
Theorem gateway_error_messages :
  ∀ (now : N) (r : Response),
    ok r = false ->
    postJson_settle now (Responded r) = Throw (error_thrown r)
    ∧ (∀ body e message, body_json r = Return body ->
         get_prop (js "error") body = Some e -> json_truthy e = true ->
         ToString e = Return message ->
         error_thrown r = ApiError message (Some (status r)))
    ∧ (∀ body, body_json r = Return body ->
         (∀ e, get_prop (js "error") body = Some e -> json_truthy e = false) ->
         error_thrown r
         = ApiError (or_else (statusText r) (js "API request failed"))
             (Some (status r)))
    ∧ (∀ x, body_json r = Throw x ->
         error_thrown r
         = ApiError (or_else (or_else (body_text r) (statusText r))
                       (js "API request failed"))
             (Some (status r)))
    ∧ postFormData_settle (Responded r)
      = Throw (ApiError (or_else (body_text r) (js "Upload failed"))
                 (Some (status r)))
    ∧ get_settle (Responded r)
      = Throw (ApiError (statusText r) (Some (status r))).
Proof.
  intros now r Hok. repeat split.
  - simpl. by apply handleResponse_not_ok.
  - intros body e message Hb He Ht Hs.
    unfold error_thrown, error_value, get_prop_opt.
    rewrite Hb, He, Ht. by rewrite Ht, Hs.
  - intros body Hb Hno. unfold error_thrown, error_value, get_prop_opt.
    rewrite Hb.
    destruct (get_prop (js "error") body) as [e|] eqn:He.
    + rewrite (Hno e eq_refl). by rewrite ToString_string_choice.
    + by rewrite ToString_string_choice.
  - intros x Hx. unfold error_thrown, error_value. rewrite Hx.
    unfold or_else at 2. destruct (truthy (body_text r)) eqn:Ht.
    + cbn [json_truthy]. rewrite Ht. unfold ToString. cbn.
      unfold or_else. by rewrite Ht.
    + by rewrite ToString_string_choice.
  - simpl. by rewrite Hok.
  - simpl. by rewrite Hok.
Qed.

Lemma gateway_error_messages_witness :
  postJson_settle 0 (Responded resp_404_error)
  = Throw (ApiError (js "boom") (Some 404)).
Proof.
  refine (eq_trans (proj1 (gateway_error_messages 0 resp_404_error _)) _);
    vm_compute; reflexivity.
Defined.

(** C5, as first stated, fails for two of the entry points: the GET
    ignores the [error] field of a JSON body, and the form-data POST never
    falls back on the status text. *)
Lemma get_and_form_other_messages :
  ok resp_404_error = false
  ∧ body_json resp_404_error = Return (JObj [ (js "error", JStr (js "boom")) ])
  ∧ get_settle (Responded resp_404_error)
    = Throw (ApiError (js "Not Found") (Some 404))
  ∧ js "Not Found" ≠ js "boom"
  ∧ ok resp_400_empty = false
  ∧ body_text resp_400_empty = []
  ∧ postFormData_settle (Responded resp_400_empty)
    = Throw (ApiError (js "Upload failed") (Some 400))
  ∧ js "Upload failed" ≠ statusText resp_400_empty.
Proof. vm_compute. repeat split; try reflexivity; discriminate. Qed.

(** ** The download trigger *)

Lemma revoked_not_live u h : u ∉ live_urls (revokeObjectURL u h).
Proof.
  unfold revokeObjectURL. simpl. rewrite list_elem_of_filter. tauto.
Qed.

Lemma filter_drops_head (u : N) (l : list N) :
  filter (λ v, v ≠ u) (u :: l) = filter (λ v, v ≠ u) l.
Proof. rewrite filter_cons. by destruct (decide (u ≠ u)). Qed.

(** With no throwing host call the helper runs to its end. *)
Lemma downloadFromApi_no_faults now a h :
  returns (snd (downloadFromApi now no_faults a h)) = true.
Proof. by destruct a. Qed.

(** C8 (as amended): when the helper runs to its end on a file response,
    which it does whenever no host call throws, it has initiated exactly
    one save, of the blob under the file name (or a synthesized name when
    the file name is empty), and the object URL it allocated is revoked:
    the live URLs are the earlier ones without it.  The helper has no
    handler of its own for a throwing step. *)
Theorem downloadFromApi_releases_url :
  ∀ (now : N) (fl : Faults) blob fileName mimeType r (h : Host),
    returns (snd (downloadFromApi now fl
                    (FileResponse blob fileName mimeType r) h)) = true ->
    let h' := fst (downloadFromApi now fl
                     (FileResponse blob fileName mimeType r) h) in
    (allocated_url h ∉ live_urls h')
    ∧ live_urls h' = filter (λ v, v ≠ allocated_url h) (live_urls h)
    ∧ saves h' = saves h ++ [(or_else fileName (fallback_name now), blob)]
    ∧ returns (snd (downloadFromApi now no_faults
                      (FileResponse blob fileName mimeType r) h)) = true.
Proof.
  intros now fl blob fileName mimeType r h. unfold downloadFromApi.
  destruct (createObjectURL_throws fl); [discriminate|].
  cbn [createObjectURL].
  destruct (appendChild_throws fl); [discriminate|].
  destruct (click_throws fl); [discriminate|].
  destruct (removeChild_throws fl); [discriminate|].
  intros _. cbn [fst]. split; [|split; [|split]].
  - apply revoked_not_live.
  - unfold allocated_url. cbn. apply filter_drops_head.
  - reflexivity.
  - reflexivity.
Qed.

Lemma downloadFromApi_releases_url_witness :
  live_urls (fst (downloadFromApi 0 no_faults
                    (FileResponse (body_blob resp_pdf) (js "plan.pdf")
                       (js "application/pdf") resp_pdf) host0)) = [].
Proof.
  refine (eq_trans
            (proj1 (proj2 (downloadFromApi_releases_url 0 no_faults
                             (body_blob resp_pdf) (js "plan.pdf")
                             (js "application/pdf") resp_pdf host0 _))) _);
    vm_compute; reflexivity.
Defined.

(** C8, as first stated, fails: when the click throws, the call ends there
    and the URL it allocated stays live. *)
Lemma downloadFromApi_click_throws_leaks :
  downloadFromApi 0 click_fault
    (FileResponse (body_blob resp_pdf) (js "plan.pdf")
       (js "application/pdf") resp_pdf) host0
  = (mkHost [0] 1 [mkLink 0 (js "plan.pdf")] [],
     Throw (TypeError (js "click failed")))
  ∧ (allocated_url host0
     ∈ live_urls (fst (downloadFromApi 0 click_fault
                         (FileResponse (body_blob resp_pdf) (js "plan.pdf")
                            (js "application/pdf") resp_pdf) host0))).
Proof.
  split; [vm_compute; reflexivity|]. vm_compute. apply list_elem_of_here.
Qed.

(** ** The generation controllers *)

Lemma validate_no_docs ft f :
  selectedDocs f = [] -> ∃ msg, validate ft f = Some msg ∧ truthy msg = true.
Proof.
  intros Hd. unfold validate, no_docs. rewrite Hd.
  destruct ft; try destruct (negb (truthy (trim (topic f)))); eauto.
Qed.

Lemma handleSubmit_begin_refused ft f c msg :
  validate ft f = Some msg ->
  handleSubmit_begin ft f c
  = (mkCtl (result c) None (loading c) (Some msg) Preview, None).
Proof. intros Hv. unfold handleSubmit_begin. by rewrite Hv. Qed.

Lemma handleSubmit_begin_accepted ft f c :
  validate ft f = None ->
  handleSubmit_begin ft f c
  = (mkCtl (result c) None true None Preview,
     Some (postJson_request (endpoint ft) (payload ft f))).
Proof. intros Hv. unfold handleSubmit_begin. by rewrite Hv. Qed.

(** What a settlement writes, by the way it ends. *)
Lemma handleSubmit_settle_failure ft s c h e :
  settle_failure s h = Some e ->
  fst (handleSubmit_settle ft s c h)
  = mkCtl (result c) (lastDownload c) false
      (Some (message_or (failure_text ft) e)) (viewMode c).
Proof.
  unfold settle_failure, handleSubmit_settle.
  destruct (postJson_settle _ _) as [[data r|blob fileName mimeType r]|e'].
  - discriminate.
  - destruct (downloadFromApi _ _ _ _) as [h' [v|e']]; simpl.
    + discriminate.
    + by intros [= ->].
  - by intros [= ->].
Qed.

Lemma handleSubmit_settle_json ft s c h data r :
  postJson_settle (clock_parse s) (outcome s) = Return (JsonResponse data r) ->
  handleSubmit_settle ft s c h
  = (mkCtl (Some data) (lastDownload c) false (error c) (viewMode c), h).
Proof. intros Hp. unfold handleSubmit_settle. by rewrite Hp. Qed.

Lemma handleSubmit_settle_file ft s c h blob fileName mimeType r :
  postJson_settle (clock_parse s) (outcome s)
  = Return (FileResponse blob fileName mimeType r) ->
  settle_failure s h = None ->
  fst (handleSubmit_settle ft s c h)
  = mkCtl None (Some fileName) false (error c) (viewMode c).
Proof.
  intros Hp. unfold settle_failure, handleSubmit_settle. rewrite Hp.
  by destruct (downloadFromApi _ _ _ _) as [h' [v|e']].
Qed.

Lemma step_settle_ctl ft w s :
  ctl (step ft w (Settle s)) = fst (handleSubmit_settle ft s (ctl w) (host w)).
Proof. simpl. by destruct (handleSubmit_settle _ _ _ _). Qed.

Lemma step_settle_calls ft w s : calls (step ft w (Settle s)) = calls w.
Proof. simpl. by destruct (handleSubmit_settle _ _ _ _). Qed.

Lemma step_settle_host ft w s :
  host (step ft w (Settle s)) = snd (handleSubmit_settle ft s (ctl w) (host w)).
Proof. simpl. by destruct (handleSubmit_settle _ _ _ _). Qed.

Lemma step_submit_accepted ft w f :
  validate ft f = None ->
  step ft w (Submit f)
  = mkWorld (mkCtl (result (ctl w)) None true None Preview) (host w)
      (calls w ++ [postJson_request (endpoint ft) (payload ft f)]).
Proof. intros Hv. simpl. by rewrite (handleSubmit_begin_accepted _ _ _ Hv). Qed.

Lemma step_submit_refused ft w f msg :
  validate ft f = Some msg ->
  step ft w (Submit f)
  = mkWorld (mkCtl (result (ctl w)) None (loading (ctl w)) (Some msg) Preview)
      (host w) (calls w).
Proof. intros Hv. simpl. by rewrite (handleSubmit_begin_refused _ _ _ _ Hv). Qed.

(** C3: for each of the three controllers and every form whose selected
    documents are empty, submitting ends at the local checks: the
    controller holds the (non-empty) message of the failed check, no
    request is handed to the gateway and the list of calls is as it was. *)
Theorem empty_selection_fails_locally :
  ∀ (ft : Feature) (f : Form) (w : World),
    selectedDocs f = [] ->
    let w' := step ft w (Submit f) in
    (∃ msg, validate ft f = Some msg ∧ truthy msg = true
            ∧ error (ctl w') = Some msg)
    ∧ snd (handleSubmit_begin ft f (ctl w)) = None
    ∧ calls w' = calls w
    ∧ loading (ctl w') = loading (ctl w).
Proof.
  intros ft f w Hd w'.
  destruct (validate_no_docs ft f Hd) as (msg & Hv & Ht).
  subst w'. rewrite (step_submit_refused _ _ _ _ Hv).
  rewrite (handleSubmit_begin_refused _ _ _ _ Hv). eauto 10.
Qed.

Lemma empty_selection_fails_locally_witness :
  calls (step LessonPlan world0 (Submit (form0 []))) = [].
Proof.
  exact (proj1 (proj2 (proj2
           (empty_selection_fails_locally LessonPlan (form0 []) world0 eq_refl)))).
Defined.

Lemma validate_message_truthy ft f msg :
  validate ft f = Some msg -> truthy msg = true.
Proof.
  unfold validate.
  destruct ft; try destruct (negb (truthy (trim (topic f))));
    destruct (no_docs f); intros [= <-]; reflexivity.
Qed.

(** C4 (as amended): whenever a submission fails, at the local checks or
    when its call settles (the gateway throws, or the download helper
    does), the controller's error is set to the failure's message, and the
    error alert is on the page exactly when that message is not empty,
    which it always is for a local failure; the download notice is cleared
    and the view mode reset; the result kept from an earlier successful
    submission stays as it was. *)
Theorem failed_submission_keeps_result :
  ∀ (ft : Feature) (f : Form) (s : Settlement) (w : World) (msg : jsstring),
    failure_message ft f s (host w) = Some msg ->
    let w' := run ft (submission ft f s) w in
    error (ctl w') = Some msg
    ∧ error_alert (render (ctl w')) = truthy msg
    ∧ (is_Some (validate ft f) -> truthy msg = true)
    ∧ lastDownload (ctl w') = None
    ∧ viewMode (ctl w') = Preview
    ∧ result (ctl w') = result (ctl w).
Proof.
  intros ft f s w msg. unfold failure_message, submission.
  destruct (validate ft f) as [m|] eqn:Hv.
  - intros [= ->]. cbn [run fold_left].
    rewrite (step_submit_refused _ _ _ _ Hv). cbn.
    repeat split; try done. intros _. by apply (validate_message_truthy ft f).
  - destruct (settle_failure s (host w)) as [e|] eqn:Hf; [|discriminate].
    intros [= <-]. cbn [run fold_left].
    rewrite step_settle_ctl, (step_submit_accepted _ _ _ Hv). cbn [ctl host].
    rewrite (handleSubmit_settle_failure _ _ _ _ _ Hf). cbn.
    repeat split; done.
Qed.

Lemma failed_submission_keeps_result_witness :
  result (ctl (run Content [Submit (form0 [js "guide.pdf"]); Settle unreachable]
                 world_with_result))
  = Some (answer "old").
Proof.
  exact (proj2 (proj2 (proj2 (proj2 (proj2
           (failed_submission_keeps_result Content (form0 [js "guide.pdf"])
              unreachable world_with_result (js "Failed to fetch") eq_refl)))))).
Defined.

(** C4, as first stated, fails twice over.  A submission refused for its
    empty selection leaves the earlier result on display next to the new
    error; and a submission answered by a 500 whose JSON [error] field is
    an empty array ends with the empty string as its error, so that no
    alert is rendered and the earlier result stands alone. *)
Lemma stale_result_beside_error :
  error (ctl (step Assessment world_with_result (Submit (form0 []))))
  = Some (js "Please choose at least one knowledge base document.")
  ∧ result (ctl (step Assessment world_with_result (Submit (form0 []))))
    = Some (answer "old")
  ∧ result (ctl (step Assessment world_with_result (Submit (form0 []))))
    ≠ None
  ∧ error (ctl (run Assessment
                  [Submit (form0 [js "guide.pdf"]);
                   Settle (settles_with resp_500_error_list)]
                  world_with_result))
    = Some []
  ∧ render (ctl (run Assessment
                   [Submit (form0 [js "guide.pdf"]);
                    Settle (settles_with resp_500_error_list)]
                   world_with_result))
    = mkShown false false true.
Proof. vm_compute. repeat split; try reflexivity; discriminate. Qed.

(** While a call is loading the submit button does nothing. *)
Lemma press_submit_while_loading ft f w :
  loading (ctl w) = true -> press_submit ft f w = w.
Proof. intros Hl. unfold press_submit, submit_disabled. by rewrite Hl. Qed.

(** C2 (as amended): the controllers keep no sequence number and apply each
    response when it settles.  For two submissions [f1] then [f2] that both
    pass the local checks, with the first response settling after the
    second, both requests were sent, loading is off, and the final state is
    what the first submission's settlement writes over the state the
    second one's settlement left: its payload as the result, with the
    notice and the error as the second left them; or its file name as the
    download notice with no result, the error as the second left it; or
    its failure's message as the error, with the result and the notice as
    the second left them.  The state the second settlement left is what it
    wrote over the state cleared by the submissions.  Only the button
    stands in the way of such an overlap: while the first call is loading,
    pressing it changes nothing. *)
Theorem last_settlement_wins :
  ∀ (ft : Feature) (f1 f2 : Form) (s1 s2 : Settlement) (w : World),
    validate ft f1 = None ->
    validate ft f2 = None ->
    let w2 := run ft [Submit f1; Submit f2; Settle s2] w in
    let w' := run ft [Submit f1; Submit f2; Settle s2; Settle s1] w in
    calls w' = calls w ++ [postJson_request (endpoint ft) (payload ft f1);
                           postJson_request (endpoint ft) (payload ft f2)]
    ∧ loading (ctl w') = false
    ∧ match postJson_settle (clock_parse s1) (outcome s1) with
      | Return (JsonResponse data _) =>
          result (ctl w') = Some data
          ∧ lastDownload (ctl w') = lastDownload (ctl w2)
          ∧ error (ctl w') = error (ctl w2)
      | Return (FileResponse _ fileName _ _) =>
          match settle_failure s1 (host w2) with
          | None =>
              lastDownload (ctl w') = Some fileName
              ∧ result (ctl w') = None
              ∧ error (ctl w') = error (ctl w2)
          | Some e =>
              error (ctl w') = Some (message_or (failure_text ft) e)
              ∧ result (ctl w') = result (ctl w2)
              ∧ lastDownload (ctl w') = lastDownload (ctl w2)
          end
      | Throw e =>
          error (ctl w') = Some (message_or (failure_text ft) e)
          ∧ result (ctl w') = result (ctl w2)
          ∧ lastDownload (ctl w') = lastDownload (ctl w2)
      end
    ∧ press_submit ft f2 (step ft w (Submit f1)) = step ft w (Submit f1)
    ∧ viewMode (ctl w') = Preview
    ∧ ctl w2
      = fst (handleSubmit_settle ft s2
               (mkCtl (result (ctl w)) None true None Preview) (host w)).
Proof.
  intros ft f1 f2 s1 s2 w Hv1 Hv2 w2 w'.
  assert (Hw' : w' = step ft w2 (Settle s1)) by reflexivity.
  assert (Hc2 : calls w2
                = calls w ++ [postJson_request (endpoint ft) (payload ft f1);
                              postJson_request (endpoint ft) (payload ft f2)]).
  { subst w2. cbn [run fold_left]. rewrite step_settle_calls.
    rewrite (step_submit_accepted _ _ _ Hv2), (step_submit_accepted _ _ _ Hv1).
    cbn [calls]. by rewrite <- app_assoc. }
  assert (Hctl2 : ctl w2
                  = fst (handleSubmit_settle ft s2
                           (mkCtl (result (ctl w)) None true None Preview)
                           (host w))).
  { subst w2. cbn [run fold_left]. rewrite step_settle_ctl.
    by rewrite (step_submit_accepted _ _ _ Hv2), (step_submit_accepted _ _ _ Hv1). }
  assert (Hview2 : viewMode (ctl w2) = Preview).
  { rewrite Hctl2. unfold handleSubmit_settle.
    destruct (postJson_settle (clock_parse s2) (outcome s2))
      as [[data r|blob fileName mimeType r]|e]; [done| |done].
    by destruct (downloadFromApi _ _ _ _) as [h' [v|e']]. }
  clearbody w2 w'. subst w'. split; [|split; [|split; [|split; [|split]]]].
  - by rewrite step_settle_calls.
  - rewrite step_settle_ctl. unfold handleSubmit_settle.
    destruct (postJson_settle _ _) as [[data r|blob fileName mimeType r]|e];
      [done| |done].
    by destruct (downloadFromApi _ _ _ _) as [h' [v|e']].
  - rewrite step_settle_ctl.
    destruct (postJson_settle (clock_parse s1) (outcome s1))
      as [[data r|blob fileName mimeType r]|e] eqn:Hp.
    + by rewrite (handleSubmit_settle_json _ _ _ _ _ _ Hp).
    + destruct (settle_failure s1 (host w2)) as [e|] eqn:Hf.
      * by rewrite (handleSubmit_settle_failure _ _ _ _ _ Hf).
      * by rewrite (handleSubmit_settle_file _ _ _ _ _ _ _ _ Hp Hf).
    + assert (Hf : settle_failure s1 (host w2) = Some e).
      { unfold settle_failure. by rewrite Hp. }
      by rewrite (handleSubmit_settle_failure _ _ _ _ _ Hf).
  - apply press_submit_while_loading.
    by rewrite (step_submit_accepted _ _ _ Hv1).
  - rewrite step_settle_ctl, <- Hview2. unfold handleSubmit_settle.
    destruct (postJson_settle (clock_parse s1) (outcome s1))
      as [[data r|blob fileName mimeType r]|e]; [done| |done].
    by destruct (downloadFromApi _ _ _ _) as [h' [v|e']].
  - done.
Qed.

Lemma last_settlement_wins_witness :
  result (ctl (run Assessment
                 [Submit (form0 [js "guide.pdf"]); Submit (form0 [js "guide.pdf"]);
                  Settle (settles_with (resp_answer "second"));
                  Settle (settles_with (resp_answer "first"))] world0))
  = Some (answer "first").
Proof.
  exact (proj1 (proj1 (proj2 (proj2
           (last_settlement_wins Assessment (form0 [js "guide.pdf"])
              (form0 [js "guide.pdf"]) (settles_with (resp_answer "first"))
              (settles_with (resp_answer "second")) world0 eq_refl eq_refl))))).
Defined.

(** C2, as first stated, fails: two submissions are in flight, the second
    one's response (the answer [second]) settles first and the first one's
    (the answer [first]) after it; the controller ends showing the first
    submission's answer. *)
Lemma stale_response_overwrites :
  calls (run Assessment
           [Submit (form0 [js "guide.pdf"]); Submit (form0 [js "guide.pdf"])]
           world0)
  = [postJson_request (endpoint Assessment)
       (payload Assessment (form0 [js "guide.pdf"]));
     postJson_request (endpoint Assessment)
       (payload Assessment (form0 [js "guide.pdf"]))]
  ∧ result (ctl (run Assessment
                   [Submit (form0 [js "guide.pdf"]);
                    Submit (form0 [js "guide.pdf"]);
                    Settle (settles_with (resp_answer "second"));
                    Settle (settles_with (resp_answer "first"))] world0))
    = Some (answer "first")
  ∧ answer "first" ≠ answer "second".
Proof. vm_compute. repeat split; try reflexivity; discriminate. Qed.

(** ** Readiness *)

Lemma UploadType_eqb_eq a b : UploadType_eqb a b = true ↔ a = b.
Proof. destruct a, b; simpl; split; congruence. Qed.

(** The data status after a settled upload: the flag of the uploaded type
    is raised when the upload succeeded, and nothing else changes. *)
Lemma handleUpload_settle_status t f p d :
  snd (handleUpload_settle t f p d)
  = if upload_succeeds f then handleStatusChange (flag_update t) d else d.
Proof.
  unfold handleUpload_settle, upload_succeeds.
  destruct (postFormData_settle f) as [response|e]; simpl; [|done].
  by destruct (successMessage t response).
Qed.

Lemma flag_update_ready t u d :
  ready u (handleStatusChange (flag_update t) d)
  = if UploadType_eqb u t then true else ready u d.
Proof. by destruct t, u. Qed.

Lemma flag_update_monotone t u d :
  ready u d = true -> ready u (handleStatusChange (flag_update t) d) = true.
Proof. rewrite flag_update_ready. by destruct (UploadType_eqb u t). Qed.

Lemma uploads_run_cons t f ups p d :
  uploads_run ((t, f) :: ups) (p, d)
  = uploads_run ups (handleUpload_settle t f p d).
Proof. reflexivity. Qed.

Lemma uploads_run_monotone ups :
  ∀ p d u, ready u d = true -> ready u (snd (uploads_run ups (p, d))) = true.
Proof.
  induction ups as [|[t f] ups IH]; intros p d u Hu; [done|].
  rewrite uploads_run_cons.
  destruct (handleUpload_settle t f p d) as [p' d'] eqn:Hs.
  apply IH. replace d' with (snd (handleUpload_settle t f p d)) by by rewrite Hs.
  rewrite handleUpload_settle_status.
  destruct (upload_succeeds f); [by apply flag_update_monotone | done].
Qed.

(** C7 (as amended): for every upload type, a successful upload raises
    exactly that type's readiness flag, a failed upload leaves the whole
    data status as it was, and no upload, whatever its type and outcome,
    lowers a flag that is raised: through any run of uploads a raised flag
    stays raised.  (The start-up health answer is a separate writer, which
    overwrites the three flags from the server's counters.) *)
Theorem upload_readiness :
  ∀ (t : UploadType) (f : FetchOutcome) (p : Panel) (d : DataStatus),
    let d' := snd (handleUpload_settle t f p d) in
    (upload_succeeds f = true ->
       ready t d' = true
       ∧ (∀ u, u ≠ t -> ready u d' = ready u d)
       ∧ documentCount d' = documentCount d)
    ∧ (upload_succeeds f = false -> d' = d)
    ∧ (∀ ups u, ready u d = true ->
         ready u (snd (uploads_run ups (p, d))) = true).
Proof.
  intros t f p d d'. subst d'. rewrite handleUpload_settle_status.
  split; [|split].
  - intros ->. split; [|split].
    + rewrite flag_update_ready.
      by rewrite (proj2 (UploadType_eqb_eq t t) eq_refl).
    + intros u Hne. rewrite flag_update_ready.
      destruct (UploadType_eqb u t) eqn:He; [|done].
      by apply UploadType_eqb_eq in He.
    + by destruct t.
  - by intros ->.
  - intros ups u. apply uploads_run_monotone.
Qed.

Lemma upload_readiness_witness :
  ready courses
    (snd (uploads_run [(holidays, Responded resp_upload_failed);
                       (courses, Responded resp_upload_failed)]
            (initial_panel, mkDataStatus true false false 3)))
  = true.
Proof.
  exact (proj2 (proj2
           (upload_readiness holidays (Responded resp_upload_failed)
              initial_panel (mkDataStatus true false false 3)))
           [(holidays, Responded resp_upload_failed);
            (courses, Responded resp_upload_failed)] courses eq_refl).
Defined.

(** C7, as first stated, fails: a flag does not only go from false to true
    over the life of the page.  The course upload succeeds and raises the
    flag; the health answer that arrives after it, computed by the server
    before the upload, reports no course and the flag is lowered again. *)
Lemma health_answer_lowers_flag :
  upload_succeeds (Responded resp_upload_ok) = true
  ∧ ready courses
      (snd (status_run [UploadSettled courses (Responded resp_upload_ok)]
              (initial_panel, initial_status))) = true
  ∧ ready courses
      (snd (status_run [UploadSettled courses (Responded resp_upload_ok);
                        HealthAnswered (mkHealth 0 0 false)]
              (initial_panel, initial_status))) = false.
Proof. vm_compute. repeat split; reflexivity. Qed.

(** ** Location defaults *)

Lemma on_geo_error_denied s :
  on_geo_error PERMISSION_DENIED s
  = mkLocState (location s) (locationSource s) true.
Proof. reflexivity. Qed.

Lemma fetchLocation_ip_success now f s data r :
  postJson_settle now f = Return (JsonResponse data r) ->
  fetchLocation_settle None now f s
  = mkLocState (Some data) SourceIp (geolocationDenied s).
Proof. intros Hp. unfold fetchLocation_settle. by rewrite Hp. Qed.

(** C9: once the IP-based lookup has succeeded, a browser geolocation
    attempt that fails for a refused permission sets the denied signal and
    leaves the stored suggestion and its provenance [ip] as they were, and
    with them the suggested region and language. *)
Theorem denied_geolocation_keeps_ip_suggestion :
  ∀ (now : N) (f : FetchOutcome) (s : LocState) (data : json) (r : Response),
    postJson_settle now f = Return (JsonResponse data r) ->
    let s1 := fetchLocation_settle None now f s in
    let s2 := on_geo_error PERMISSION_DENIED s1 in
    location s1 = Some data
    ∧ locationSource s1 = SourceIp
    ∧ geolocationDenied s2 = true
    ∧ location s2 = Some data
    ∧ locationSource s2 = SourceIp
    ∧ suggestedState s2 = suggestedState s1
    ∧ suggestedLanguage s2 = suggestedLanguage s1.
Proof.
  intros now f s data r Hp s1 s2. subst s2 s1.
  rewrite (fetchLocation_ip_success _ _ _ _ _ Hp), on_geo_error_denied.
  repeat split.
Qed.

Lemma denied_geolocation_keeps_ip_suggestion_witness :
  suggestedState
    (on_geo_error PERMISSION_DENIED
       (fetchLocation_settle None 0 (Responded resp_maharashtra) initial_loc))
  = js "Maharashtra"
  ∧ locationSource
      (on_geo_error PERMISSION_DENIED
         (fetchLocation_settle None 0 (Responded resp_maharashtra) initial_loc))
    = SourceIp
  ∧ geolocationDenied
      (on_geo_error PERMISSION_DENIED
         (fetchLocation_settle None 0 (Responded resp_maharashtra) initial_loc))
    = true.
Proof.
  pose proof (denied_geolocation_keeps_ip_suggestion 0
                (Responded resp_maharashtra) initial_loc maharashtra
                resp_maharashtra eq_refl) as (_ & _ & Hd & _ & Hs & Hst & _).
  split; [|split].
  - exact (eq_trans Hst eq_refl).
  - exact Hs.
  - exact Hd.
Defined.

(** * Further properties of the code *)

(** ** The filename pattern and the resolver's branches *)

Lemma not_semicolons_split s :
  ∃ post, s = not_semicolons s ++ post
          ∧ (post = [] ∨ ∃ post', post = 59 :: post').
Proof.
  induction s as [|c s IH]; simpl.
  - exists []. split; [done | by left].
  - destruct (c =? 59) eqn:Hc.
    + apply N.eqb_eq in Hc as ->. exists (59 :: s). split; [done|]. right. eauto.
    + destruct IH as (post & Hs & Hp). exists post. split; [|done].
      simpl. by rewrite <- Hs.
Qed.

Lemma not_semicolons_free s : 59 ∉ not_semicolons s.
Proof.
  induction s as [|c s IH]; simpl; [apply not_elem_of_nil|].
  destruct (c =? 59) eqn:Hc; [apply not_elem_of_nil|].
  apply N.eqb_neq in Hc. rewrite not_elem_of_cons. split; [congruence | done].
Qed.

Lemma equals_then_token_split s tok :
  equals_then_token s = Some tok ->
  tok ≠ [] ∧ (59 ∉ tok)
  ∧ ∃ post, s = 61 :: tok ++ post ∧ (post = [] ∨ ∃ post', post = 59 :: post').
Proof.
  destruct s as [|c s]; [discriminate|]. simpl.
  destruct (c =? 61) eqn:Hc; [|discriminate]. apply N.eqb_eq in Hc as ->.
  pose proof (not_semicolons_free s) as Hfree.
  destruct (not_semicolons_split s) as (post & Hs & Hp).
  destruct (not_semicolons s) as [|t ts] eqn:Ht; [discriminate|].
  intros [= <-]. split; [done|]. split; [done|].
  exists post. split; [by rewrite Hs at 1 | done].
Qed.

Lemma strip_prefix_ci_split pat :
  ∀ s r, strip_prefix_ci pat s = Some r ->
         ∃ name, s = name ++ r ∧ strip_prefix_ci pat name = Some [].
Proof.
  induction pat as [|p pat IH]; intros s r; simpl.
  - intros [= <-]. by exists [].
  - destruct s as [|x s]; [discriminate|].
    destruct (ci_eqb p x) eqn:Hx; [|discriminate].
    intros Hr. destruct (IH _ _ Hr) as (name & -> & Hn).
    exists (x :: name). split; [done|]. simpl. by rewrite Hx.
Qed.

(** The shape of a header the pattern matches at its head. *)
Definition parameter_then_token (name star tok post : jsstring) : Prop :=
  strip_prefix_ci (js "filename") name = Some []
  ∧ (star = [] ∨ star = [42])
  ∧ tok ≠ [] ∧ (59 ∉ tok)
  ∧ (post = [] ∨ ∃ post', post = 59 :: post').

Lemma match_here_split s tok :
  match_here s = Some tok ->
  ∃ name star post,
    s = name ++ star ++ 61 :: tok ++ post
    ∧ parameter_then_token name star tok post.
Proof.
  unfold match_here.
  destruct (strip_prefix_ci (js "filename") s) as [r|] eqn:Hs; [|discriminate].
  destruct (strip_prefix_ci_split _ _ _ Hs) as (name & -> & Hname).
  assert (Hplain : equals_then_token r = Some tok ->
                   ∃ name0 star post,
                     name ++ r = name0 ++ star ++ 61 :: tok ++ post
                     ∧ parameter_then_token name0 star tok post).
  { intros He. destruct (equals_then_token_split _ _ He) as (Hne & Hf & post & -> & Hp).
    exists name, [], post. split; [done|]. repeat split; auto. }
  destruct r as [|c r']; [discriminate|].
  destruct (c =? 42) eqn:Hc; [|done].
  apply N.eqb_eq in Hc as ->.
  destruct (equals_then_token r') as [tok'|] eqn:He'; [|done].
  intros [= ->].
  destruct (equals_then_token_split _ _ He') as (Hne & Hf & post & -> & Hp).
  exists name, [42], post. split; [done|]. repeat split; auto.
Qed.

Lemma regex_exec_split :
  ∀ (cd tok : jsstring),
    regex_exec cd = Some tok ->
    ∃ pre name star post,
      cd = pre ++ name ++ star ++ 61 :: tok ++ post
      ∧ parameter_then_token name star tok post.
Proof.
  induction cd as [|c cd IH]; intros tok.
  - discriminate.
  - cbn [regex_exec].
    destruct (match_here (c :: cd)) as [tok'|] eqn:Hm.
    + intros [= ->]. destruct (match_here_split _ _ Hm) as (name & star & post & -> & Hp).
      by exists [], name, star, post.
    + intros Hr. destruct (IH _ Hr) as (pre & name & star & post & -> & Hp).
      by exists (c :: pre), name, star, post.
Qed.

(** X1: whenever the pattern of [parseFileName] matches, the captured
    token is a non-empty run without a semicolon that stands in the header
    right after [filename=] or [filename*=] (in any letter case) and runs
    to the next semicolon or to the end of the header; it is never longer
    than the header. *)
Theorem regex_exec_token_shape :
  ∀ (cd tok : jsstring),
    regex_exec cd = Some tok ->
    (∃ pre name star post,
       cd = pre ++ name ++ star ++ 61 :: tok ++ post
       ∧ parameter_then_token name star tok post)
    ∧ (List.length tok < List.length cd)%nat.
Proof.
  intros cd tok Hr.
  destruct (regex_exec_split _ _ Hr) as (pre & name & star & post & Hcd & Hp).
  split.
  - by exists pre, name, star, post.
  - rewrite Hcd. rewrite !length_app. cbn [List.length].
    rewrite length_app. lia.
Qed.

Lemma regex_exec_token_shape_witness :
  ∃ pre name star post,
    js "inline; FileName*=utf-8''x; size=3"
    = pre ++ name ++ star ++ 61 :: js "utf-8''x" ++ post
    ∧ parameter_then_token name star (js "utf-8''x") post.
Proof.
  refine (proj1 (regex_exec_token_shape
                   (js "inline; FileName*=utf-8''x; size=3")
                   (js "utf-8''x") _)).
  vm_compute. reflexivity.
Defined.

(** X2: a content-disposition header without an equals sign never yields a
    token: the resolver returns the synthesized name. *)
Theorem parseFileName_without_equals :
  ∀ (now : N) (cd : jsstring),
    61 ∉ cd ->
    parseFileName now (Some cd) = Return (fallback_name now).
Proof.
  intros now cd Hno. apply parseFileName_fallback.
  destruct (regex_exec cd) as [tok|] eqn:Hr; [|done].
  destruct (regex_exec_split _ _ Hr) as (pre & name & star & post & -> & _).
  exfalso. apply Hno. rewrite !elem_of_app. right. right. right.
  apply list_elem_of_here.
Qed.

Lemma parseFileName_without_equals_witness :
  parseFileName 9 (Some (js "attachment; filename")) = Return (js "download-9").
Proof.
  refine (eq_trans (parseFileName_without_equals 9 (js "attachment; filename") _) _).
  - vm_compute. intros H. repeat (apply elem_of_cons in H as [H|H]; [discriminate|]).
    by apply elem_of_nil in H.
  - vm_compute. reflexivity.
Defined.

Lemma trimStart_subset s c : c ∈ trimStart s -> c ∈ s.
Proof.
  induction s as [|x s IH]; simpl; [done|].
  destruct (is_trim_unit x); [|done].
  intros H. apply elem_of_cons. right. by apply IH.
Qed.

Lemma elem_of_rev (s : jsstring) c : c ∈ rev s ↔ c ∈ s.
Proof. rewrite !list_elem_of_In. symmetry. apply in_rev. Qed.

Lemma trim_subset s c : c ∈ trim s -> c ∈ s.
Proof.
  unfold trim, trimEnd. rewrite elem_of_rev.
  intros H. apply trimStart_subset in H.
  rewrite elem_of_rev in H. by apply trimStart_subset.
Qed.

(** X3: a name the resolver takes from a plain token (one that, trimmed,
    does not start with [UTF-8'']) contains no semicolon, no double quote
    and no single quote. *)
Theorem parseFileName_plain_name_clean :
  ∀ (now : N) (cd tok name : jsstring),
    regex_exec cd = Some tok ->
    startsWith utf8_prefix (trim tok) = false ->
    parseFileName now (Some cd) = Return name ->
    (59 ∉ name) ∧ (34 ∉ name) ∧ (39 ∉ name).
Proof.
  intros now cd tok name Hr Hp. unfold parseFileName.
  rewrite (regex_exec_truthy _ _ Hr). cbn [negb]. rewrite Hr. cbv zeta.
  rewrite Hp. intros [= <-].
  destruct (regex_exec_split _ _ Hr)
    as (pre & nm & star & post & _ & _ & _ & _ & Hfree & _).
  repeat split; intros H; apply remove_quotes_keeps in H as (Hin & H34 & H39);
    try done.
  apply Hfree. by apply trim_subset.
Qed.

Lemma parseFileName_plain_name_clean_witness :
  (59 ∉ js "its.pdf") ∧ (34 ∉ js "its.pdf") ∧ (39 ∉ js "its.pdf").
Proof.
  refine (parseFileName_plain_name_clean 7
            (js "attachment; filename='it''s.pdf' ; size=3")
            (js "'it''s.pdf' ") (js "its.pdf") _ _ _);
    vm_compute; reflexivity.
Defined.

Lemma decodeURIComponent_no_percent s :
  37 ∉ s -> decodeURIComponent s = Some s.
Proof.
  induction s as [|c s IH]; [done|].
  intros H. apply not_elem_of_cons in H as [Hc Hs]. cbn [decodeURIComponent].
  destruct (c =? 37) eqn:He; [apply N.eqb_eq in He; congruence|].
  cbn [negb]. by rewrite (IH Hs).
Qed.

(** X4: for a token that, trimmed, starts with [UTF-8''] and has no percent
    sign after the prefix, the resolver returns the rest of the token as it
    stands: in this branch quotes are not removed. *)
Theorem parseFileName_extended_verbatim :
  ∀ (now : N) (cd tok : jsstring),
    regex_exec cd = Some tok ->
    startsWith utf8_prefix (trim tok) = true ->
    37 ∉ substring_from 7 (trim tok) ->
    parseFileName now (Some cd) = Return (substring_from 7 (trim tok)).
Proof.
  intros now cd tok Hr Hp Hno. unfold parseFileName.
  rewrite (regex_exec_truthy _ _ Hr). cbn [negb]. rewrite Hr. cbv zeta.
  by rewrite Hp, (decodeURIComponent_no_percent _ Hno).
Qed.

Lemma parseFileName_extended_verbatim_witness :
  parseFileName 7 (Some (js "attachment; filename*=UTF-8''o'neil.pdf"))
  = Return (js "o'neil.pdf").
Proof.
  refine (eq_trans
            (parseFileName_extended_verbatim 7
               (js "attachment; filename*=UTF-8''o'neil.pdf")
               (js "UTF-8''o'neil.pdf") _ _ _) _).
  - vm_compute. reflexivity.
  - vm_compute. reflexivity.
  - vm_compute. intros H.
    repeat (apply elem_of_cons in H as [H|H]; [discriminate|]).
    by apply elem_of_nil in H.
  - vm_compute. reflexivity.
Defined.

(** ** The gateway on bare and odd responses *)

Lemma or_else_truthy_r a b : truthy b = true -> truthy (or_else a b) = true.
Proof. intros Hb. unfold or_else. by destruct (truthy a) eqn:Ha. Qed.

Lemma or_else_truthy_l a b : truthy a = true -> or_else a b = a.
Proof. intros Ha. unfold or_else. by rewrite Ha. Qed.

(** X5: a file response the gateway returns always has a non-empty MIME
    type, carries the response's own blob, and takes the blob's type
    whenever that is not empty. *)
Theorem file_response_mime :
  ∀ (now : N) (r r' : Response) blob fileName mimeType,
    handleResponse now r = Return (FileResponse blob fileName mimeType r') ->
    truthy mimeType = true
    ∧ blob = body_blob r
    ∧ r' = r
    ∧ (truthy (blob_type blob) = true -> mimeType = blob_type blob).
Proof.
  intros now r r' blob fileName mimeType. unfold handleResponse.
  destruct (negb (ok r)); [discriminate|]. cbv zeta.
  destruct (includes _ _).
  - destruct (body_json r); discriminate.
  - destruct (parseFileName _ _); [|discriminate].
    intros [= <- <- <- <-]. split; [|split; [|split]]; try done.
    + by apply or_else_truthy_r.
    + intros Hb. by rewrite (or_else_truthy_l _ _ Hb), (or_else_truthy_l _ _ Hb).
Qed.

Lemma file_response_mime_witness :
  truthy (js "application/pdf") = true
  ∧ body_blob resp_pdf = body_blob resp_pdf
  ∧ resp_pdf = resp_pdf
  ∧ (truthy (blob_type (body_blob resp_pdf)) = true ->
     js "application/pdf" = blob_type (body_blob resp_pdf)).
Proof.
  refine (file_response_mime 0 resp_pdf resp_pdf (body_blob resp_pdf)
            (js "plan.pdf") (js "application/pdf") _).
  vm_compute. reflexivity.
Defined.

(** X6: a successful response that has neither a content-type nor a
    content-disposition header is always returned as a file, never as
    JSON: under the synthesized name, with the blob's type or, when that is
    empty, [application/octet-stream]. *)
Theorem handleResponse_bare_response :
  ∀ (now : N) (r : Response),
    ok r = true ->
    headers_get "content-type" r = None ->
    headers_get "content-disposition" r = None ->
    handleResponse now r
    = Return (FileResponse (body_blob r) (fallback_name now)
                (or_else (blob_type (body_blob r))
                   (js "application/octet-stream")) r).
Proof.
  intros now r Hok Hct Hcd. rewrite (handleResponse_ok _ _ Hok).
  unfold declares_json, mime_of. rewrite Hct, Hcd.
  simpl. do 2 f_equal. unfold or_else.
  destruct (truthy (blob_type (body_blob r))) eqn:Hb; simpl; by rewrite ?Hb.
Qed.

Lemma handleResponse_bare_response_witness :
  handleResponse 4 (mkResponse 200 [] ∅ (Return JNull) (js "null")
                      (mkBlob (js "null") []))
  = Return (FileResponse (mkBlob (js "null") []) (js "download-4")
              (js "application/octet-stream")
              (mkResponse 200 [] ∅ (Return JNull) (js "null")
                 (mkBlob (js "null") []))).
Proof.
  exact (handleResponse_bare_response 4
           (mkResponse 200 [] ∅ (Return JNull) (js "null")
              (mkBlob (js "null") [])) eq_refl eq_refl eq_refl).
Defined.

(** X7: the message [handleResponse] puts in its [ApiError] is empty only
    when the body is JSON with a truthy [error] field that prints as the
    empty string (an empty array, say); in every other case some text is
    shown. *)
Theorem error_message_empty_only_if :
  ∀ (r : Response),
    error_message r = [] ->
    ∃ body e,
      body_json r = Return body
      ∧ get_prop (js "error") body = Some e
      ∧ json_truthy e = true
      ∧ to_string e = [].
Proof.
  intros r. unfold error_message, error_thrown, ToString.
  destruct (printable (error_value r)); [|discriminate].
  cbn [message_or]. unfold error_value, get_prop_opt.
  assert (Hs : ∀ a, to_string (if json_truthy (JStr a) then JStr a
                               else JStr (js "API request failed")) ≠ []).
  { intros a. rewrite or_else_truthy_string. intros H.
    pose proof (or_else_truthy_r a (js "API request failed") eq_refl) as Ht.
    by rewrite H in Ht. }
  destruct (body_json r) as [body|x].
  - destruct (get_prop (js "error") body) as [e|] eqn:He.
    + destruct (json_truthy e) eqn:Ht.
      * rewrite Ht. intros Hm. by exists body, e.
      * intros Hm. by apply Hs in Hm.
    + intros Hm. by apply Hs in Hm.
  - destruct (truthy (body_text r)).
    + intros Hm. by apply Hs in Hm.
    + intros Hm. by apply Hs in Hm.
Qed.

Lemma error_message_empty_only_if_witness :
  ∃ body e,
    body_json (mkResponse 500 (js "Server Error") ∅
                 (Return (JObj [ (js "error", JArr []) ])) [] (mkBlob [] []))
    = Return body
    ∧ get_prop (js "error") body = Some e
    ∧ json_truthy e = true
    ∧ to_string e = [].
Proof.
  exact (error_message_empty_only_if
           (mkResponse 500 (js "Server Error") ∅
              (Return (JObj [ (js "error", JArr []) ])) [] (mkBlob [] []))
           eq_refl).
Defined.

(** ** The download trigger on every path *)

Lemma fallback_name_truthy now : truthy (fallback_name now) = true.
Proof. reflexivity. Qed.

(** X8: whatever host call throws, [downloadFromApi] initiates at most one
    save, and a save it initiates is always under a non-empty file name
    (the synthesized one when the response's file name is empty) and of
    the response's blob. *)
Theorem download_saves_once_named :
  ∀ (now : N) (fl : Faults) (a : ApiResponse) (h : Host),
    let h' := fst (downloadFromApi now fl a h) in
    saves h' = saves h
    ∨ ∃ blob fileName mimeType r name,
        a = FileResponse blob fileName mimeType r
        ∧ saves h' = saves h ++ [(name, blob)]
        ∧ truthy name = true
        ∧ (truthy fileName = true -> name = fileName).
Proof.
  intros now fl [data r|blob fileName mimeType r] h; [by left|].
  unfold downloadFromApi.
  destruct (createObjectURL_throws fl); [by left|]. cbn [createObjectURL].
  destruct (appendChild_throws fl); [by left|].
  destruct (click_throws fl); [by left|].
  assert (Hn : truthy (or_else fileName (fallback_name now)) = true)
    by apply or_else_truthy_r, fallback_name_truthy.
  destruct (removeChild_throws fl); right;
    exists blob, fileName, mimeType, r, (or_else fileName (fallback_name now));
    repeat split; try done; apply or_else_truthy_l.
Qed.

(** X9: on a file response, with the URL to allocate not yet live, the
    object URL stays live after the call exactly when it was allocated and
    one of the later steps (appending the link, the click, removing the
    link) threw; on every other path it is not live. *)
Theorem download_leak_iff :
  ∀ (now : N) (fl : Faults) blob fileName mimeType r (h : Host),
    allocated_url h ∉ live_urls h ->
    allocated_url h
      ∈ live_urls (fst (downloadFromApi now fl
                          (FileResponse blob fileName mimeType r) h))
    ↔ createObjectURL_throws fl = None
      ∧ (is_Some (appendChild_throws fl) ∨ is_Some (click_throws fl)
         ∨ is_Some (removeChild_throws fl)).
Proof.
  intros now fl blob fileName mimeType r h Hfresh. unfold downloadFromApi.
  destruct (createObjectURL_throws fl) as [e0|]; cbn [fst].
  { split; [done|]. by intros [? _]. }
  cbn [createObjectURL].
  destruct (appendChild_throws fl) as [e1|]; cbn [fst live_urls].
  { split; [eauto|]. intros _. apply list_elem_of_here. }
  destruct (click_throws fl) as [e2|]; cbn [fst].
  { split; [eauto|]. intros _. apply list_elem_of_here. }
  destruct (removeChild_throws fl) as [e3|]; cbn [fst].
  { split; [eauto|]. intros _. apply list_elem_of_here. }
  split.
  - intros H. by apply revoked_not_live in H.
  - intros [_ [[? H]|[[? H]|[? H]]]]; discriminate.
Qed.

Lemma download_leak_iff_witness :
  allocated_url host0
    ∈ live_urls (fst (downloadFromApi 0 click_fault
                        (FileResponse (body_blob resp_pdf) (js "plan.pdf")
                           (js "application/pdf") resp_pdf) host0))
  ↔ createObjectURL_throws click_fault = None
    ∧ (is_Some (appendChild_throws click_fault)
       ∨ is_Some (click_throws click_fault)
       ∨ is_Some (removeChild_throws click_fault)).
Proof.
  refine (download_leak_iff 0 click_fault (body_blob resp_pdf) (js "plan.pdf")
            (js "application/pdf") resp_pdf host0 _).
  vm_compute. apply not_elem_of_nil.
Defined.

Lemma remove_first_appended (l : Link) (ls : list Link) :
  Forall (λ x, href x ≠ href l) ls ->
  remove_first link_eqb l (ls ++ [l]) = ls.
Proof.
  induction 1 as [|x ls Hx _ IH]; simpl.
  - unfold link_eqb. rewrite N.eqb_refl. simpl.
    assert (Hj : ∀ s, jseqb s s = true).
    { induction s as [|c s IHs]; [done|]. simpl. unfold cu_eqb.
      by rewrite N.eqb_refl. }
    by rewrite Hj.
  - unfold link_eqb at 1. apply not_eq_sym, N.eqb_neq in Hx. rewrite Hx.
    simpl. by rewrite IH.
Qed.

(** X10: when the helper runs to its end on a file response, in a document
    none of whose links already points at the URL it allocates, the
    temporary link is gone again: the document body has the children it
    had before the call. *)
Theorem download_restores_body :
  ∀ (now : N) (fl : Faults) blob fileName mimeType r (h : Host),
    Forall (λ x, href x ≠ allocated_url h) (body_children h) ->
    returns (snd (downloadFromApi now fl
                    (FileResponse blob fileName mimeType r) h)) = true ->
    body_children (fst (downloadFromApi now fl
                          (FileResponse blob fileName mimeType r) h))
    = body_children h.
Proof.
  intros now fl blob fileName mimeType r h Hfresh. unfold downloadFromApi.
  destruct (createObjectURL_throws fl); [discriminate|]. cbn [createObjectURL].
  destruct (appendChild_throws fl); [discriminate|].
  destruct (click_throws fl); [discriminate|].
  destruct (removeChild_throws fl); [discriminate|].
  intros _. cbn. by apply remove_first_appended.
Qed.

Lemma download_restores_body_witness :
  body_children (fst (downloadFromApi 0 no_faults
                        (FileResponse (body_blob resp_pdf) (js "plan.pdf")
                           (js "application/pdf") resp_pdf)
                        (mkHost [] 5 [mkLink 2 (js "old.pdf")] [])))
  = [mkLink 2 (js "old.pdf")].
Proof.
  refine (download_restores_body 0 no_faults (body_blob resp_pdf)
            (js "plan.pdf") (js "application/pdf") resp_pdf
            (mkHost [] 5 [mkLink 2 (js "old.pdf")] []) _ _).
  - repeat constructor. vm_compute. discriminate.
  - reflexivity.
Defined.

(** ** The controllers: what is accepted, sent and shown *)

(** X11: a submission passes the local checks exactly when at least one
    document is selected and, for the lesson planner and the content
    generator, the topic is not blank; the assessment creator accepts a
    blank topic. *)
Theorem validate_accepts_iff :
  ∀ (ft : Feature) (f : Form),
    validate ft f = None
    ↔ selectedDocs f ≠ []
      ∧ (ft = Assessment ∨ truthy (trim (topic f)) = true).
Proof.
  intros ft f. unfold validate, no_docs.
  destruct ft; destruct (selectedDocs f) as [|d ds];
    try destruct (truthy (trim (topic f))); simpl;
    split; try discriminate; try (intros [? _]; done);
    try (intros [_ [?|?]]; discriminate); try (intros _; split; auto; done).
Qed.

Lemma run_app ft evs1 evs2 w :
  run ft (evs1 ++ evs2) w = run ft evs2 (run ft evs1 w).
Proof. unfold run. apply fold_left_app. Qed.

Lemma step_calls ft w ev :
  calls (step ft w ev) = calls w ++ requests_of ft [ev].
Proof.
  destruct ev as [f|s].
  - unfold requests_of. simpl.
    destruct (validate ft f) as [msg|] eqn:Hv.
    + rewrite (handleSubmit_begin_refused _ _ _ _ Hv). simpl.
      by rewrite app_nil_r.
    + by rewrite (handleSubmit_begin_accepted _ _ _ Hv).
  - rewrite step_settle_calls. simpl. by rewrite app_nil_r.
Qed.

(** X12: over any sequence of submissions and settlements, a controller
    hands the gateway exactly one request for each submission that passes
    the local checks, in the order of the submissions, and none for a
    refused submission or for a settlement: no retry, no duplicate. *)
Theorem calls_follow_accepted_submissions :
  ∀ (ft : Feature) (evs : list Event) (w : World),
    calls (run ft evs w) = calls w ++ requests_of ft evs.
Proof.
  intros ft evs. induction evs as [|ev evs IH]; intros w.
  - simpl. by rewrite app_nil_r.
  - change (run ft (ev :: evs) w) with (run ft evs (step ft w ev)).
    rewrite IH, step_calls, <- app_assoc. f_equal.
    unfold requests_of. simpl.
    by destruct ev as [f|s]; [destruct (validate ft f)|].
Qed.

(** X13: every request a controller sends is a POST to its own endpoint
    whose JSON body carries the selected documents, of which there is at
    least one, the chosen output format under its wire name, the trimmed
    topic as the query and, except for the assessment creator, a query
    that is not empty. *)
Theorem request_carries_selection :
  ∀ (ft : Feature) (f : Form) (c c' : Ctl) (rq : Request),
    handleSubmit_begin ft f c = (c', Some rq) ->
    req_method rq = POST
    ∧ req_path rq = endpoint ft
    ∧ req_body rq = JsonBody (payload ft f)
    ∧ get_prop (js "selected_documents") (payload ft f)
      = Some (JArr (map JStr (selectedDocs f)))
    ∧ selectedDocs f ≠ []
    ∧ get_prop (js "output_format") (payload ft f)
      = Some (JStr (format_name (format f)))
    ∧ get_prop (js "query") (payload ft f) = Some (JStr (trim (topic f)))
    ∧ (ft ≠ Assessment -> trim (topic f) ≠ []).
Proof.
  intros ft f c c' rq Hb.
  destruct (validate ft f) as [msg|] eqn:Hv.
  { rewrite (handleSubmit_begin_refused _ _ _ _ Hv) in Hb. discriminate. }
  rewrite (handleSubmit_begin_accepted _ _ _ Hv) in Hb.
  injection Hb as _ <-.
  assert (Hd : selectedDocs f ≠ []).
  { intros Hd. destruct (validate_no_docs ft f Hd) as (msg & Hm & _).
    congruence. }
  repeat split; try done; try (by destruct ft).
  intros Hne Hempty. unfold validate in Hv. rewrite Hempty in Hv.
  by destruct ft.
Qed.

Lemma request_carries_selection_witness :
  get_prop (js "output_format") (payload LessonPlan (form0 [js "guide.pdf"]))
  = Some (JStr (js "json")).
Proof.
  exact (proj1 (proj2 (proj2 (proj2 (proj2 (proj2
           (request_carries_selection LessonPlan (form0 [js "guide.pdf"])
              initial _ _ eq_refl))))))).
Defined.

Lemma downloadFromApi_returns_saves now fl blob fileName mimeType r h :
  returns (snd (downloadFromApi now fl
                  (FileResponse blob fileName mimeType r) h)) = true ->
  saves (fst (downloadFromApi now fl (FileResponse blob fileName mimeType r) h))
  = saves h ++ [(or_else fileName (fallback_name now), blob)].
Proof.
  unfold downloadFromApi.
  destruct (createObjectURL_throws fl); [discriminate|]. cbn [createObjectURL].
  destruct (appendChild_throws fl); [discriminate|].
  destruct (click_throws fl); [discriminate|].
  by destruct (removeChild_throws fl).
Qed.



(** X15: a submission that passes the local checks, whose call settles
    with a file response and whose download runs to its end, ends with the
    resolved file name as the download notice, the earlier result cleared,
    no error and loading off; exactly one save was initiated, of the
    response's blob, under the resolved name or, when that is empty, a
    synthesized one, in which case the notice is not on the page. *)
Theorem file_submission_outcome :
  ∀ (ft : Feature) (f : Form) (s : Settlement) (w : World)
    blob fileName mimeType r,
    validate ft f = None ->
    postJson_settle (clock_parse s) (outcome s)
    = Return (FileResponse blob fileName mimeType r) ->
    settle_failure s (host w) = None ->
    let w' := run ft [Submit f; Settle s] w in
    ctl w' = mkCtl None (Some fileName) false None Preview
    ∧ saves (host w')
      = saves (host w)
        ++ [(or_else fileName (fallback_name (clock_download s)), blob)]
    ∧ render (ctl w') = mkShown false (truthy fileName) false.
Proof.
  intros ft f s w blob fileName mimeType r Hv Hp Hf w'. subst w'.
  cbn [run fold_left]. rewrite (step_submit_accepted _ _ _ Hv).
  set (c := mkCtl (result (ctl w)) None true None Preview).
  set (w1 := mkWorld c (host w) _).
  assert (Hc : ctl (step ft w1 (Settle s))
               = mkCtl None (Some fileName) false None Preview).
  { rewrite step_settle_ctl. subst w1. cbn [ctl host].
    by rewrite (handleSubmit_settle_file _ _ _ _ _ _ _ _ Hp Hf). }
  split; [done|]. split; [|by rewrite Hc].
  rewrite step_settle_host. subst w1. cbn [ctl host].
  unfold settle_failure in Hf. unfold handleSubmit_settle. rewrite Hp in *.
  pose proof (downloadFromApi_returns_saves (clock_download s) (faults s)
                blob fileName mimeType r (host w)) as Hsv.
  destruct (downloadFromApi _ _ _ _) as [h' [v|e]]; [|discriminate].
  by apply Hsv.
Qed.

Lemma file_submission_outcome_witness :
  ctl (run Content [Submit (form0 [js "guide.pdf"]); Settle (settles_with resp_pdf)]
         world_with_result)
  = mkCtl None (Some (js "plan.pdf")) false None Preview.
Proof.
  exact (proj1
           (file_submission_outcome Content (form0 [js "guide.pdf"])
              (settles_with resp_pdf) world_with_result (body_blob resp_pdf)
              (js "plan.pdf") (js "application/pdf") resp_pdf
              eq_refl eq_refl eq_refl)).
Defined.

Lemma handleSubmit_settle_loading ft s c h :
  loading (fst (handleSubmit_settle ft s c h)) = false.
Proof.
  unfold handleSubmit_settle.
  destruct (postJson_settle _ _) as [[data r|blob fileName mimeType r]|e];
    [done| |done].
  by destruct (downloadFromApi _ _ _ _) as [h' [v|e']].
Qed.

(** A session is settled (nothing in flight, loading off) or busy (one
    call in flight, loading on). *)
Definition session_ok (ss : Session) : Prop :=
  (pending ss = 0%nat ∧ loading (ctl (world ss)) = false)
  ∨ (pending ss = 1%nat ∧ loading (ctl (world ss)) = true).

Lemma ui_step_session_ok ft ss ev : session_ok ss -> session_ok (ui_step ft ss ev).
Proof.
  intros Hok. destruct ev as [f|s]; cbn [ui_step].
  - unfold submit_disabled.
    destruct (loading (ctl (world ss))) eqn:Hl; [done|].
    destruct Hok as [[Hp _]|[_ Hl']]; [|congruence].
    destruct (validate ft f) as [msg|] eqn:Hv.
    + rewrite (step_submit_refused _ _ _ _ Hv),
        (handleSubmit_begin_refused _ _ _ _ Hv). left. by cbn.
    + rewrite (step_submit_accepted _ _ _ Hv),
        (handleSubmit_begin_accepted _ _ _ Hv). right. cbn. by rewrite Hp.
  - destruct (pending ss) as [|n] eqn:Hp; [done|].
    destruct Hok as [[Hp' _]|[Hp' _]]; [congruence|].
    left. cbn [pending world]. split; [congruence|].
    rewrite step_settle_ctl. apply handleSubmit_settle_loading.
Qed.

(** X16: driven through its submit button, which is disabled while
    loading, a controller that starts with nothing in flight never has
    more than one call in flight, and its loading flag is on exactly while
    a call is in flight; the overlap of C2 cannot be produced by presses. *)
Theorem button_keeps_one_call_in_flight :
  ∀ (ft : Feature) (evs : list UiEvent) (ss : Session),
    pending ss = 0%nat ->
    loading (ctl (world ss)) = false ->
    let ss' := ui_run ft evs ss in
    (pending ss' ≤ 1)%nat
    ∧ (loading (ctl (world ss')) = true ↔ pending ss' = 1%nat).
Proof.
  intros ft evs ss Hp Hl ss'.
  assert (Hok : session_ok ss') .
  { subst ss'. assert (H0 : session_ok ss) by (left; done).
    clear Hp Hl. revert ss H0. induction evs as [|ev evs IH]; intros ss H0.
    - done.
    - apply (IH (ui_step ft ss ev)). by apply ui_step_session_ok. }
  destruct Hok as [[-> ->]|[-> ->]]; split; try lia; split; done.
Qed.

Lemma button_keeps_one_call_in_flight_witness :
  (pending (ui_run Assessment
              [Press (form0 [js "guide.pdf"]); Press (form0 [js "guide.pdf"])]
              (mkSession world0 0)) ≤ 1)%nat.
Proof.
  exact (proj1
           (button_keeps_one_call_in_flight Assessment
              [Press (form0 [js "guide.pdf"]); Press (form0 [js "guide.pdf"])]
              (mkSession world0 0) eq_refl eq_refl)).
Defined.

(** ** The upload panel *)

(** X17: the three uploads keep separate in-progress flags: starting or
    settling an upload of one type turns that type's flag on, respectively
    off, and leaves the flags of the other two types as they are, so an
    upload never blocks or unblocks another type's button. *)
Theorem upload_flags_independent :
  ∀ (t : UploadType) (file : list N) (f : FetchOutcome) (p : Panel)
    (d : DataStatus),
    uploading (fst (handleUpload_begin t file p)) t = true
    ∧ uploading (fst (handleUpload_settle t f p d)) t = false
    ∧ (∀ u, u ≠ t ->
         uploading (fst (handleUpload_begin t file p)) u = uploading p u
         ∧ uploading (fst (handleUpload_settle t f p d)) u = uploading p u).
Proof.
  intros t file f p d.
  assert (Hself : UploadType_eqb t t = true) by by apply UploadType_eqb_eq.
  assert (Hs : ∀ u, uploading (fst (handleUpload_settle t f p d)) u
                    = if UploadType_eqb u t then false else uploading p u).
  { intros u. unfold handleUpload_settle.
    destruct (postFormData_settle f) as [response|e]; [|done].
    by destruct (successMessage t response). }
  split; [|split].
  - cbn. by rewrite Hself.
  - by rewrite Hs, Hself.
  - intros u Hne.
    assert (Hu : UploadType_eqb u t = false).
    { destruct (UploadType_eqb u t) eqn:He; [|done].
      by apply UploadType_eqb_eq in He. }
    split; [cbn; by rewrite Hu | by rewrite Hs, Hu].
Qed.



(** ** Location: the order in which the two lookups settle *)

(** X19: the two lookups write the same state with no ordering between
    them: when the browser lookup has succeeded and the IP lookup succeeds
    after it, the IP answer replaces the browser's suggestion and the
    provenance becomes [ip]; the denied signal stays off. *)
Theorem late_ip_answer_overrides_browser :
  ∀ (c : Coords) (now now' : N) (fb fi : FetchOutcome) (s : LocState)
    db rb di ri,
    postJson_settle now fb = Return (JsonResponse db rb) ->
    postJson_settle now' fi = Return (JsonResponse di ri) ->
    fetchLocation_settle None now' fi (fetchLocation_settle (Some c) now fb s)
    = mkLocState (Some di) SourceIp false.
Proof.
  intros c now now' fb fi s db rb di ri Hb Hi.
  unfold fetchLocation_settle. by rewrite Hb, Hi.
Qed.

Lemma late_ip_answer_overrides_browser_witness :
  suggestedState
    (fetchLocation_settle None 0 (Responded resp_maharashtra)
       (fetchLocation_settle (Some ahmedabad) 0 (Responded resp_gujarat)
          initial_loc))
  = js "Maharashtra".
Proof.
  exact (eq_trans
           (f_equal suggestedState
              (late_ip_answer_overrides_browser ahmedabad 0 0
                 (Responded resp_gujarat) (Responded resp_maharashtra)
                 initial_loc gujarat resp_gujarat maharashtra resp_maharashtra
                 eq_refl eq_refl))
           eq_refl).
Defined.

(** X20: when the browser lookup has succeeded and the IP lookup fails
    after it, the browser's suggestion stays but its provenance is lost:
    the source becomes [unknown]. *)
Theorem late_ip_failure_drops_provenance :
  ∀ (c : Coords) (now now' : N) (fb fi : FetchOutcome) (s : LocState) db rb,
    postJson_settle now fb = Return (JsonResponse db rb) ->
    returns (postJson_settle now' fi) = false ->
    fetchLocation_settle None now' fi (fetchLocation_settle (Some c) now fb s)
    = mkLocState (Some db) SourceUnknown false.
Proof.
  intros c now now' fb fi s db rb Hb Hi.
  unfold fetchLocation_settle. rewrite Hb.
  by destruct (postJson_settle now' fi).
Qed.

Lemma late_ip_failure_drops_provenance_witness :
  fetchLocation_settle None 0 (Responded resp_404_error)
    (fetchLocation_settle (Some ahmedabad) 0 (Responded resp_gujarat)
       initial_loc)
  = mkLocState (Some gujarat) SourceUnknown false.
Proof.
  exact (late_ip_failure_drops_provenance ahmedabad 0 0
           (Responded resp_gujarat) (Responded resp_404_error) initial_loc
           gujarat resp_gujarat eq_refl eq_refl).
Defined.

(** X21: when the sensor has given coordinates and the lookup with them
    fails, by a rejected request or by any response that is not ok, the
    denied signal is raised although no permission was refused; the stored
    suggestion and its provenance stay. *)
Theorem coords_lookup_failure_marks_denied :
  ∀ (c : Coords) (now : N) (s : LocState),
    (∀ e, fetchLocation_settle (Some c) now (Rejected e) s
          = mkLocState (location s) (locationSource s) true)
    ∧ (∀ r, ok r = false ->
            fetchLocation_settle (Some c) now (Responded r) s
            = mkLocState (location s) (locationSource s) true).
Proof.
  intros c now s. split.
  - done.
  - intros r Hok. unfold fetchLocation_settle. cbn [postJson_settle].
    by rewrite (handleResponse_not_ok _ _ Hok).
Qed.

Lemma coords_lookup_failure_marks_denied_witness :
  geolocationDenied
    (fetchLocation_settle (Some ahmedabad) 0 (Responded resp_404_error)
       initial_loc) = true.
Proof.
  exact (f_equal geolocationDenied
           (proj2 (coords_lookup_failure_marks_denied ahmedabad 0
                     initial_loc) resp_404_error eq_refl)).
Defined.

(** ** Start-up *)

(** X22: when the documents request fails (a rejected request, a response
    that is not ok, or a body that does not decode), start-up stops there,
    whatever the health request answered: the error is set to the
    failure's message and loading is turned off, while the documents, the
    data status, the health record and the location are left as they were
    and no location lookup is started.  For a response that is not ok the
    message is the response's status text, and the alert is on the page
    only when that text is not empty. *)
Theorem initialise_documents_failure :
  ∀ (as_documents : json -> option DocumentsResponse)
    (as_health : json -> option HealthStatus)
    (fd fh : FetchOutcome) (a : AppState) (e : Exn),
    get_settle fd = Throw e ->
    initialise_answers as_documents as_health fd fh a
    = (mkApp (documents a) false
         (Some (message_or (js "Unable to load initial data.") e))
         (health a) (dataStatus a) (loc a),
       None)
    ∧ (∀ r, fd = Responded r -> ok r = false ->
         app_error (fst (initialise_answers as_documents as_health fd fh a))
         = Some (statusText r)
         ∧ opt_truthy
             (app_error (fst (initialise_answers as_documents as_health fd fh a)))
           = truthy (statusText r)).
Proof.
  intros asd ash fd fh a e Hf.
  assert (Hi : initialise_answers asd ash fd fh a
               = (mkApp (documents a) false
                    (Some (message_or (js "Unable to load initial data.") e))
                    (health a) (dataStatus a) (loc a), None)).
  { unfold initialise_answers, get_as. by rewrite Hf. }
  split; [done|]. intros r -> Hok. rewrite Hi. cbn [fst app_error].
  cbn [get_settle] in Hf. rewrite Hok in Hf. cbn [negb] in Hf.
  injection Hf as <-. done.
Qed.

Lemma initialise_documents_failure_witness :
  initialise_answers sample_as_documents sample_as_health
    (Responded resp_404_error) (Responded resp_null) initial_app
  = (mkApp [] false (Some (js "Not Found")) None initial_status initial_loc,
     None).
Proof.
  exact (proj1
           (initialise_documents_failure sample_as_documents sample_as_health
              (Responded resp_404_error) (Responded resp_null) initial_app
              (ApiError (js "Not Found") (Some 404)) eq_refl)).
Defined.

(** X23: when the documents request succeeds, start-up goes on whatever
    the health request did: the IP location lookup is started, the stored
    document count is the number of stored documents, and when the health
    request failed the readiness flags and the health record are left as
    they were. *)
Theorem initialise_counts_documents :
  ∀ (as_documents : json -> option DocumentsResponse)
    (as_health : json -> option HealthStatus)
    (fd fh : FetchOutcome) (a : AppState),
    returns (get_settle fd) = true ->
    let a' := fst (initialise_answers as_documents as_health fd fh a) in
    snd (initialise_answers as_documents as_health fd fh a)
    = Some (fetchLocation_request None)
    ∧ documentCount (dataStatus a') = N.of_nat (List.length (documents a'))
    ∧ app_error a' = app_error a
    ∧ (returns (get_settle fh) = false ->
       health a' = health a
       ∧ ∀ t, ready t (dataStatus a') = ready t (dataStatus a)).
Proof.
  intros asd ash fd fh a Hd a'. subst a'. unfold initialise_answers, get_as.
  destruct (get_settle fd) as [v|e]; [|discriminate]. cbv zeta.
  destruct (get_settle fh) as [hv|he].
  - destruct (ash hv) as [hs|]; repeat split; try done.
  - repeat split; done.
Qed.

Lemma initialise_counts_documents_witness :
  documentCount
    (dataStatus
       (fst (initialise_answers sample_as_documents sample_as_health
               (Responded resp_documents) (Responded resp_404_error)
               initial_app)))
  = 2.
Proof.
  exact (eq_trans
           (proj1 (proj2
              (initialise_counts_documents sample_as_documents sample_as_health
                 (Responded resp_documents) (Responded resp_404_error)
                 initial_app eq_refl)))
           eq_refl).
Defined.

(** ** The personalised-learning upload *)

(** X24: without a chosen file the upload handler sends nothing: it sets
    its own message and leaves the loading flag and the report on display
    as they were. *)
Theorem personalized_no_file_no_call :
  ∀ (p : Personalized.PL),
    Personalized.file p = None ->
    snd (Personalized.handleUpload_begin p) = None
    ∧ (∃ msg, Personalized.pl_error (fst (Personalized.handleUpload_begin p))
              = Some msg ∧ truthy msg = true)
    ∧ Personalized.pl_loading (fst (Personalized.handleUpload_begin p))
      = Personalized.pl_loading p
    ∧ Personalized.pl_result (fst (Personalized.handleUpload_begin p))
      = Personalized.pl_result p.
Proof.
  intros p Hf. unfold Personalized.handleUpload_begin. rewrite Hf. cbn.
  repeat split. eauto.
Qed.

Lemma personalized_no_file_no_call_witness :
  snd (Personalized.handleUpload_begin Personalized.initial_pl) = None.
Proof.
  exact (proj1 (personalized_no_file_no_call Personalized.initial_pl eq_refl)).
Defined.

(** X25: a processing run with a chosen file sends exactly one form-data
    POST with that file; when the call fails, the report of an earlier run
    stays on display, the error is the failure's message (never empty for
    a response that is not ok: its body text, or a fixed text) and loading
    is off; choosing a file afterwards clears the report. *)
Theorem personalized_failure_keeps_report :
  ∀ (bytes : list N) (f : FetchOutcome) (p : Personalized.PL) (e : Exn),
    Personalized.file p = Some bytes ->
    postFormData_settle f = Throw e ->
    let p' := Personalized.handleUpload_settle f
                (fst (Personalized.handleUpload_begin p)) in
    snd (Personalized.handleUpload_begin p)
    = Some (postFormData_request (js "/process/assessment_and_email") bytes)
    ∧ Personalized.pl_result p' = Personalized.pl_result p
    ∧ Personalized.pl_error p'
      = Some (message_or (js "Failed to process assessment data.") e)
    ∧ Personalized.pl_loading p' = false
    ∧ (∀ r, f = Responded r -> ok r = false ->
         Personalized.pl_error p'
         = Some (or_else (body_text r) (js "Upload failed"))
         ∧ truthy (or_else (body_text r) (js "Upload failed")) = true)
    ∧ (∀ other, Personalized.pl_result
                  (Personalized.choose_file (Some other) p') = None).
Proof.
  intros bytes f p e Hf Hr p'. subst p'.
  unfold Personalized.handleUpload_begin, Personalized.handleUpload_settle.
  rewrite Hf. cbn [fst snd]. rewrite Hr. cbn.
  repeat split; try done.
  - subst f. cbn [postFormData_settle] in Hr. rewrite H0 in Hr.
    cbn [negb] in Hr. by injection Hr as <-.
  - by apply or_else_truthy_r.
Qed.

Lemma personalized_failure_keeps_report_witness :
  Personalized.pl_result
    (Personalized.handleUpload_settle (Responded resp_upload_failed)
       (fst (Personalized.handleUpload_begin
               (Personalized.mkPL (Some [1; 2]) false None
                  (Some (answer "old"))))))
  = Some (answer "old").
Proof.
  exact (proj1 (proj2
           (personalized_failure_keeps_report [1; 2]
              (Responded resp_upload_failed)
              (Personalized.mkPL (Some [1; 2]) false None (Some (answer "old")))
              (ApiError (js "disk full") (Some 500))
              eq_refl eq_refl))).
Defined.

(** ** The document selector *)

Lemma startsWith_refl s : startsWith s s = true.
Proof.
  induction s as [|c s IH]; [done|]. simpl. unfold cu_eqb.
  by rewrite N.eqb_refl.
Qed.

Lemma includes_refl s : includes s s = true.
Proof. destruct s; simpl; [done|]. unfold cu_eqb. by rewrite N.eqb_refl, startsWith_refl. Qed.

(** X26: the options the selector offers are always documents of the
    list, each as often and in the same order as there; with an empty
    search they are all of them; and typing a document's full name always
    offers that document, whatever the letter case of the name and however
    the host lowers it. *)
Theorem filteredDocs_finds_own_name :
  ∀ (toLowerCase : jsstring -> jsstring) (documents : list jsstring)
    (search doc : jsstring),
    doc ∈ documents ->
    doc ∈ filteredDocs toLowerCase documents doc
    ∧ sublist (filteredDocs toLowerCase documents search) documents
    ∧ filteredDocs toLowerCase documents [] = documents.
Proof.
  intros lower docs search doc Hin. split; [|split; [|done]].
  - unfold filteredDocs. destruct (truthy doc); cbn [negb]; [|done].
    apply list_elem_of_filter. split; [apply includes_refl | done].
  - unfold filteredDocs. destruct (truthy search); cbn [negb]; [|done].
    apply sublist_filter.
Qed.

Lemma filteredDocs_finds_own_name_witness :
  js "Guide.PDF" ∈ filteredDocs ascii_lower [js "notes.txt"; js "Guide.PDF"]
                     (js "Guide.PDF").
Proof.
  refine (proj1 (filteredDocs_finds_own_name ascii_lower
                   [js "notes.txt"; js "Guide.PDF"] (js "guide")
                   (js "Guide.PDF") _)).
  apply list_elem_of_further, list_elem_of_here.
Defined.

(** ** Failures from the gateway to the page *)

(** X27: when a controller's call is answered by a response that is not ok,
    the message the gateway built from it (the body's [error] field, the
    body text or the status text) is what the controller holds as its
    error; when the request itself is rejected, it is the rejection's own
    message, and the controller's fixed text only for a thrown value that
    is not an [Error].  Loading is off in each case. *)
Theorem gateway_failure_reaches_page :
  ∀ (ft : Feature) (f : Form) (w : World) (now now' : N) (fl : Faults),
    validate ft f = None ->
    (∀ r, ok r = false ->
          ctl (run ft [Submit f; Settle (mkSettlement (Responded r) now now' fl)] w)
          = mkCtl (result (ctl w)) None false (Some (error_message r)) Preview)
    ∧ (∀ e,
          ctl (run ft [Submit f; Settle (mkSettlement (Rejected e) now now' fl)] w)
          = mkCtl (result (ctl w)) None false
              (Some (message_or (failure_text ft) e)) Preview).
Proof.
  intros ft f w now now' fl Hv. split.
  - intros r Hok. cbn [run fold_left].
    rewrite step_settle_ctl, (step_submit_accepted _ _ _ Hv). cbn [ctl host].
    unfold handleSubmit_settle. cbn [clock_parse outcome postJson_settle].
    rewrite (handleResponse_not_ok _ _ Hok).
    by rewrite message_of_error_thrown.
  - intros e. cbn [run fold_left].
    by rewrite step_settle_ctl, (step_submit_accepted _ _ _ Hv).
Qed.

Lemma gateway_failure_reaches_page_witness :
  error (ctl (run Assessment
                [Submit (form0 [js "guide.pdf"]);
                 Settle (mkSettlement (Responded resp_404_error) 0 0 no_faults)]
                world0))
  = Some (js "boom").
Proof.
  exact (eq_trans
           (f_equal error
              (proj1 (gateway_failure_reaches_page Assessment
                        (form0 [js "guide.pdf"]) world0 0 0 no_faults eq_refl)
                 resp_404_error eq_refl))
           eq_refl).
Defined.

(** X28: an upload, from its start to its end, that is answered by a
    response that is not ok: one form-data POST of the file went to the
    type's endpoint; the panel's error is the response's body text, or
    [Upload failed] when the body is empty, so never empty; the success
    message of an earlier upload is gone, cleared when the upload
    started; the type's in-progress flag is off again and the data status
    is as it was. *)
Theorem upload_failure_message :
  ∀ (t : UploadType) (file : list N) (r : Response) (p : Panel)
    (d : DataStatus),
    ok r = false ->
    let started := fst (handleUpload_begin t file p) in
    let p' := fst (handleUpload_settle t (Responded r) started d) in
    snd (handleUpload_begin t file p)
    = postFormData_request (upload_endpoint t) file
    ∧ panel_error p' = Some (or_else (body_text r) (js "Upload failed"))
    ∧ truthy (or_else (body_text r) (js "Upload failed")) = true
    ∧ message p' = None
    ∧ uploading p' t = false
    ∧ snd (handleUpload_settle t (Responded r) started d) = d.
Proof.
  intros t file r p d Hok started p'. subst p' started.
  unfold handleUpload_settle. cbn [postFormData_settle].
  rewrite Hok. cbn.
  repeat split; try done.
  - by apply or_else_truthy_r.
  - by rewrite (proj2 (UploadType_eqb_eq t t) eq_refl).
Qed.

Lemma upload_failure_message_witness :
  panel_error
    (fst (handleUpload_settle courses (Responded resp_upload_failed)
            (fst (handleUpload_begin courses [1; 2]
                    (mkPanel (λ _, false) (Some (js "Loaded 12 courses.")) None)))
            initial_status))
  = Some (js "disk full")
  ∧ message
      (fst (handleUpload_settle courses (Responded resp_upload_failed)
              (fst (handleUpload_begin courses [1; 2]
                      (mkPanel (λ _, false) (Some (js "Loaded 12 courses."))
                         None)))
              initial_status))
    = None.
Proof.
  pose proof (upload_failure_message courses [1; 2] resp_upload_failed
                (mkPanel (λ _, false) (Some (js "Loaded 12 courses.")) None)
                initial_status eq_refl) as (_ & He & _ & Hm & _).
  split; [exact (eq_trans He eq_refl) | exact Hm].
Defined.

(** X29: when the IP lookup fails and no answer is stored, the defaults
    apply: the suggested region is [Corporate], the suggested language
    [English], the provenance [unknown], and the denied signal is not
    raised. *)
Theorem failed_ip_lookup_defaults :
  ∀ (now : N) (f : FetchOutcome) (s : LocState),
    location s = None ->
    returns (postJson_settle now f) = false ->
    let s' := fetchLocation_settle None now f s in
    suggestedState s' = js "Corporate"
    ∧ suggestedLanguage s' = js "English"
    ∧ locationSource s' = SourceUnknown
    ∧ geolocationDenied s' = geolocationDenied s.
Proof.
  intros now f s Hl Hr s'. subst s'. unfold fetchLocation_settle.
  destruct (postJson_settle now f); [discriminate|].
  unfold suggestedState, suggestedLanguage. cbn [location]. rewrite Hl.
  by cbn.
Qed.

Lemma failed_ip_lookup_defaults_witness :
  suggestedState
    (fetchLocation_settle None 0
       (Rejected (TypeError (js "Failed to fetch"))) initial_loc)
  = js "Corporate".
Proof.
  exact (proj1 (failed_ip_lookup_defaults 0
                  (Rejected (TypeError (js "Failed to fetch"))) initial_loc
                  eq_refl eq_refl)).
Defined.
